(** * CSV table viewer: the parsing and filtering core

    A shallow embedding of the three variants of the [App] component
    (the debounced all-columns viewer, the multi-column viewer with an
    explicit apply step, and the fifth-column viewer) and the proofs of the
    properties their specification states about them.

    Modelling conventions.
    - A JavaScript string is a [string]: a sequence of code units, here
      restricted to the range 0..255 (Latin-1).  [trim] and [toLowerCase]
      are the ECMAScript operations on that range.
    - A [TableRow] and a [ColumnFilter] are objects used as string-keyed
      maps; they are finite maps over their own properties.  Enumeration
      order of the keys is outside the model.  The members every plain
      object inherits from [Object.prototype] are in module [Prototype]:
      [parseCSV] assigns its cells through them, and module
      [WithPrototype] reads the cells of a row through them.  The
      functions of [Debounced] that filter read own properties only; they
      agree with [WithPrototype] whenever no filtered column of a row is
      an inherited member, which is so for the filter maps the component
      builds.
    - [x.push(v)] on an array is [x ++ [v]]; [array[i]] and [string[i]] are
      partial ([undefined] is [None]).
    - A method call on [undefined] raises [TypeError]; code that contains
      such a call is written in the [completion] monad.
    - A function of a component reads the state variables of the render
      it was created in and queues its writes; where a handler calls
      several of them, the render and the state written to are separate
      arguments. *)

From Stdlib Require Import Ascii ZArith Lia.
From stdpp Require Import base option list gmap strings.
From Equations Require Import Equations.

Local Open Scope Z_scope.
Local Open Scope nat_scope.

(* ===================================================================== *)
(** * Definitions *)
(* ===================================================================== *)

(** ** The JavaScript built-ins the component calls *)

Module JS.

(** The double quote, the comma and the line feed. *)
Definition dquote : ascii := "034"%char.
Definition comma : ascii := ","%char.
Definition LF : ascii := "010"%char.

(** A one-character string. *)
Definition str (c : ascii) : string := String c EmptyString.

(** [WhiteSpace] and [LineTerminator] code units below 256:
    TAB, LF, VT, FF, CR, SP and NBSP. *)
Definition is_white (c : ascii) : bool :=
  let n := nat_of_ascii c in
  (Nat.leb 9 n && Nat.leb n 13) || Nat.eqb n 32 || Nat.eqb n 160.

Fixpoint trimStart (s : string) : string :=
  match s with
  | EmptyString => EmptyString
  | String c s' => if is_white c then trimStart s' else s
  end.

Fixpoint trimEnd (s : string) : string :=
  match s with
  | EmptyString => EmptyString
  | String c s' =>
      match trimEnd s' with
      | EmptyString => if is_white c then EmptyString else str c
      | t => String c t
      end
  end.

(** [s.trim()] *)
Definition trim (s : string) : string := trimEnd (trimStart s).

(** Lower-casing of one code unit: A-Z, and the Latin-1 capitals
    U+00C0..U+00DE except the multiplication sign U+00D7. *)
Definition toLowerCase_char (c : ascii) : ascii :=
  let n := nat_of_ascii c in
  if (Nat.leb 65 n && Nat.leb n 90)
     || (Nat.leb 192 n && Nat.leb n 222 && negb (Nat.eqb n 215))
  then ascii_of_nat (n + 32) else c.

(** [s.toLowerCase()] *)
Fixpoint toLowerCase (s : string) : string :=
  match s with
  | EmptyString => EmptyString
  | String c s' => String (toLowerCase_char c) (toLowerCase s')
  end.

(** [s.split(sep)] for a one-character separator: never the empty
    array, [''.split(sep)] is [['']]. *)
Fixpoint split (sep : ascii) (s : string) : list string :=
  match s with
  | EmptyString => [EmptyString]
  | String c s' =>
      if Ascii.eqb c sep then EmptyString :: split sep s'
      else match split sep s' with
           | [] => [str c]
           | w :: ws => String c w :: ws
           end
  end.

(** [s.startsWith(t)] *)
Fixpoint startsWith (s t : string) {struct t} : bool :=
  match t, s with
  | EmptyString, _ => true
  | String _ _, EmptyString => false
  | String b t', String a s' => Ascii.eqb a b && startsWith s' t'
  end.

(** [s.includes(t)] *)
Fixpoint includes (s t : string) : bool :=
  startsWith s t ||
  match s with
  | EmptyString => false
  | String _ s' => includes s' t
  end.

(** Truthiness of a string: every string but [''] is truthy. *)
Definition truthy (s : string) : bool :=
  match s with EmptyString => false | String _ _ => true end.

(** [v || d] for a string-or-undefined [v]. *)
Definition or_else (v : option string) (d : string) : string :=
  match v with
  | Some s => if truthy s then s else d
  | None => d
  end.

(** [x === c] for [x] a character of a string or [undefined]. *)
Definition strictEq (x : option ascii) (c : ascii) : bool :=
  match x with
  | Some a => Ascii.eqb a c
  | None => false
  end.

(** [s += x] for [x] a character of a string or [undefined]. *)
Definition append (s : string) (x : option ascii) : string :=
  match x with
  | Some a => s +:+ str a
  | None => s +:+ "undefined"
  end.

(** [a.push(x)] *)
Definition push {A} (a : list A) (x : A) : list A := a ++ [x].

(** [a.forEach((x, index) => body)], the loop state passed along. *)
Fixpoint forEach {A St} (a : list A) (index : nat)
    (body : A -> nat -> St -> St) (st : St) : St :=
  match a with
  | [] => st
  | x :: a' => forEach a' (S index) body (body x index st)
  end.

(** [a.slice(start, end)] on integers: a negative bound counts from the
    end of the array. *)
Definition slice {A} (a : list A) (start end_ : Z) : list A :=
  let len := Z.of_nat (length a) in
  let k := if (start <? 0)%Z then Z.max (len + start) 0 else Z.min start len in
  let final := if (end_ <? 0)%Z then Z.max (len + end_) 0 else Z.min end_ len in
  take (Z.to_nat (final - k)) (drop (Z.to_nat k) a).

(** [a.every(p)] and [a.filter(p)] *)
Definition every {A} (a : list A) (p : A -> bool) : bool := forallb p a.
Definition Array_filter {A} (a : list A) (p : A -> bool) : list A :=
  List.filter p a.

(** Outcome of a function body: a value, or a thrown [TypeError] with
    its message. *)
Inductive completion (A : Type) : Type :=
| Normal (a : A)
| TypeError (message : string).
Arguments Normal {A} a.
Arguments TypeError {A} message.

#[export] Instance completion_ret : MRet completion := fun A a => Normal a.
#[export] Instance completion_bind : MBind completion := fun A B k m =>
  match m with
  | Normal a => k a
  | TypeError message => TypeError message
  end.

(** [obj.method()] where [obj] may be [undefined]. *)
Definition deref {A} (obj : option A) : completion A :=
  match obj with
  | Some a => Normal a
  | None => TypeError "Cannot read properties of undefined"
  end.

(** [for (let i = from; i < from + count; i++) body], the loop state
    passed along; the body does not assign [i]. *)
Fixpoint for_range {St} (from count : nat)
    (body : nat -> St -> completion St) (st : St) : completion St :=
  match count with
  | O => Normal st
  | S count' => body from st ≫= for_range (S from) count' body
  end.

End JS.

(** [TableRow] and [ColumnFilter] of [types/data.ts]: index signatures
    from string to string. *)
Abbreviation TableRow := (gmap string string).
Abbreviation ColumnFilter := (gmap string string).

(** [Object.entries(o)], [Object.values(o)] and [Object.keys(o)], in the
    order of the map, which is not the property order of the object: they
    are used for what they contain. *)
Definition Object_entries (o : gmap string string) : list (string * string) :=
  map_to_list o.
Definition Object_values (o : gmap string string) : list string :=
  (map_to_list o).*2.
Definition Object_keys (o : gmap string string) : list string :=
  (map_to_list o).*1.

(** ** What a plain object inherits *)

Module Prototype.

(** The property names of [Object.prototype]. *)
Definition names : list string :=
  [ "__proto__"; "constructor"; "hasOwnProperty"; "isPrototypeOf";
    "propertyIsEnumerable"; "toLocaleString"; "toString"; "valueOf";
    "__defineGetter__"; "__defineSetter__"; "__lookupGetter__";
    "__lookupSetter__" ].

Definition inherits (key : string) : bool :=
  existsb (String.eqb key) names.

(** The outcome of reading [obj[key]]: the string of an own key, else a
    member of [Object.prototype] (a function, or the prototype itself for
    [__proto__]), else [undefined]. *)
Inductive property : Type :=
| Own (s : string)
| Inherited
| Undefined.

Definition get (obj : gmap string string) (key : string) : property :=
  match obj !! key with
  | Some s => Own s
  | None => if inherits key then Inherited else Undefined
  end.

(** [obj[key] = v] for a string [v]: an own key is updated; a new key is
    stored, but for [__proto__], where the inherited setter runs and
    ignores a string. *)
Definition set (key v : string) (obj : gmap string string)
    : gmap string string :=
  match obj !! key with
  | Some _ => <[key := v]> obj
  | None => if String.eqb key "__proto__" then obj else <[key := v]> obj
  end.

End Prototype.

(** ** Callbacks that may throw *)

Module JSThrowing.
Import JS.

(** [a.filter(p)] for a callback [p] that may throw: the first throw ends
    the call. *)
Fixpoint Array_filter_throwing {A} (a : list A) (p : A -> completion bool)
    : completion (list A) :=
  match a with
  | [] => Normal []
  | x :: a' =>
      keep ← p x;
      rest ← Array_filter_throwing a' p;
      mret (if keep : bool then x :: rest else rest)
  end.

(** [a.every(p)] for a callback [p] that may throw: the call stops at the
    first [false] and at the first throw. *)
Fixpoint every_throwing {A} (a : list A) (p : A -> completion bool)
    : completion bool :=
  match a with
  | [] => Normal true
  | x :: a' =>
      holds ← p x;
      if holds : bool then every_throwing a' p else mret false
  end.

End JSThrowing.

(** ** The debounced all-columns viewer *)

Module Debounced.
Import JS.

(** The scan of [parseCSVLine]: the loop variable [i] and the three
    locals.  The loop ends when [i] reaches [line.length]; an escaped
    quote advances [i] twice. *)
Equations? parseCSVLine_loop (line : string) (i : nat)
    (result : list string) (currentValue : string) (inQuotes : bool)
    : list string by wf (String.length line - i) lt :=
parseCSVLine_loop line i result currentValue inQuotes
    with lt_dec i (String.length line) := {
  | right _ => push result (trim currentValue)
  | left _ =>
      let char := String.get i line in
      let nextChar := String.get (i + 1) line in
      if strictEq char dquote then
        if inQuotes && strictEq nextChar dquote then
          parseCSVLine_loop line (i + 1 + 1) result
            (currentValue +:+ str dquote) inQuotes
        else
          parseCSVLine_loop line (i + 1) result currentValue (negb inQuotes)
      else if strictEq char comma && negb inQuotes then
        parseCSVLine_loop line (i + 1) (push result (trim currentValue))
          EmptyString inQuotes
      else
        parseCSVLine_loop line (i + 1) result (append currentValue char)
          inQuotes }.
Proof. all: lia. Qed.

Definition parseCSVLine (line : string) : list string :=
  parseCSVLine_loop line 0 [] EmptyString false.

(** [parseCSV]: [lines[0]] and [lines[i]] are dereferenced, so the body
    is a [completion]; [continue] leaves [result] as it is. *)
Definition parseCSV (csvText : string) : completion (list TableRow) :=
  let lines := split LF csvText in
  let result : list TableRow := [] in
  if Nat.eqb (length lines) 0 then mret result else
  line0 ← deref (lines !! 0);
  let headers := map trim (split comma line0) in
  for_range 1 (length lines - 1)
    (fun i result =>
       line_i ← deref (lines !! i);
       let currentLine := trim line_i in
       if negb (truthy currentLine) then mret result else
       let values := parseCSVLine currentLine in
       let row : TableRow := ∅ in
       let row :=
         forEach headers 0
           (fun header index row =>
              Prototype.set header (or_else (values !! index) EmptyString)
                row)
           row in
       mret (push result row))
    result.

(** [applyFilters(filtersToApply, dataToFilter)], with [row[column]]
    read among the own properties of the row.  [WithPrototype.applyFilters]
    reads through [Object.prototype]; the two agree where no filtered
    column of a row is an inherited member. *)
Definition applyFilters (filtersToApply : ColumnFilter)
    (dataToFilter : list TableRow) : list TableRow :=
  if every (Object_values filtersToApply)
       (fun val => negb (truthy (trim val)))
  then dataToFilter
  else
    Array_filter dataToFilter (fun row =>
      every (Object_entries filtersToApply) (fun '(column, filterValue) =>
        if negb (truthy (trim filterValue)) then true else
        let cellValue :=
          or_else (toLowerCase <$> row !! column) EmptyString in
        let searchValue := trim (toLowerCase filterValue) in
        includes cellValue searchValue)).

(** The component state the core reads and writes. *)
Inductive ErrorMessage : Type :=
| LoadFailed (status : nat)
| Thrown (message : string).

Record State : Type := mkState {
  data : list TableRow;
  filteredData : list TableRow;
  filters : ColumnFilter;
  isLoading : bool;
  error : option ErrorMessage;
  headers : list string;
  rowsToDisplay : Z }.

(** The [useState] initial values. *)
Definition initialState : State :=
  {| data := []; filteredData := []; filters := ∅; isLoading := true;
     error := None; headers := []; rowsToDisplay := 100 |}.

Definition setData v st :=
  mkState v (filteredData st) (filters st) (isLoading st) (error st)
    (headers st) (rowsToDisplay st).
Definition setFilteredData v st :=
  mkState (data st) v (filters st) (isLoading st) (error st)
    (headers st) (rowsToDisplay st).
Definition setFilters v st :=
  mkState (data st) (filteredData st) v (isLoading st) (error st)
    (headers st) (rowsToDisplay st).
Definition setIsLoading v st :=
  mkState (data st) (filteredData st) (filters st) v (error st)
    (headers st) (rowsToDisplay st).
Definition setError v st :=
  mkState (data st) (filteredData st) (filters st) (isLoading st) v
    (headers st) (rowsToDisplay st).
Definition setHeaders v st :=
  mkState (data st) (filteredData st) (filters st) (isLoading st) (error st)
    v (rowsToDisplay st).
Definition setRowsToDisplay v st :=
  mkState (data st) (filteredData st) (filters st) (isLoading st) (error st)
    (headers st) v.

(** The response of [fetch]: [response.ok], [response.status] and the
    text [response.text()] resolves to. *)
Record Response : Type := mkResponse {
  ok : bool;
  status : nat;
  text : string }.

(** [loadCSVData], once the fetch has resolved with [response]. *)
Definition loadCSVData (response : Response) (st : State) : State :=
  let st := setIsLoading true st in
  let st := setError None st in
  if negb (ok response) then
    setIsLoading false (setError (Some (LoadFailed (status response))) st)
  else
    let csvText := text response in
    match parseCSV csvText with
    | Normal parsedData =>
        let st :=
          match parsedData with
          | row0 :: _ =>
              let st := setHeaders (Object_keys row0) st in
              let st := setData parsedData st in
              let initialFilters : ColumnFilter := ∅ in
              let initialFilters :=
                forEach (Object_keys row0) 0
                  (fun header _ initialFilters =>
                     <[header := EmptyString]> initialFilters)
                  initialFilters in
              setFilters initialFilters st
          | [] => st
          end in
        setIsLoading false st
    | TypeError message =>
        setIsLoading false (setError (Some (Thrown message)) st)
    end.

(** The filtering effect, run with the settled filters, for
    [applyFilters] above, which throws nothing;
    [WithPrototype.filterEffect] has the [catch]. *)
Definition filterEffect (st : State) : State :=
  if Nat.eqb (length (data st)) 0 then st
  else setFilteredData (applyFilters (filters st) (data st)) st.

Definition handleRowsToDisplayChange (value : Z) (st : State) : State :=
  setRowsToDisplay value st.

(** [displayRowsCount], memoised on [rowsToDisplay] and
    [filteredData.length]. *)
Definition displayRowsCount (rowsToDisplay : Z)
    (filteredData : list TableRow) : Z :=
  if (rowsToDisplay >=? Z.of_nat (length filteredData))%Z
  then Z.of_nat (length filteredData)
  else rowsToDisplay.

(** The rows [renderTableRows] maps to table rows, memoised on
    [filteredData] and [displayRowsCount]; [None] is [null]. *)
Definition renderTableRows (filteredData : list TableRow)
    (displayRowsCount : Z) : option (list TableRow) :=
  if Nat.eqb (length filteredData) 0 then None
  else
    let rowsToShow := slice filteredData 0 displayRowsCount in
    Some rowsToShow.

(** [resetAllFilters], [resetFilter] and [handleFilterChange] *)
Definition resetAllFilters (st : State) : State :=
  let resetFilters : ColumnFilter := ∅ in
  let resetFilters :=
    forEach (headers st) 0
      (fun header _ resetFilters => <[header := EmptyString]> resetFilters)
      resetFilters in
  setFilters resetFilters st.

Definition resetFilter (column : string) (st : State) : State :=
  setFilters (<[column := EmptyString]> (filters st)) st.

Definition handleFilterChange (column value : string) (st : State) : State :=
  setFilters (<[column := value]> (filters st)) st.

(** [handleKeyDown], given [e.key]. *)
Definition handleKeyDown (key : string) (st : State) : State :=
  if String.eqb key "Enter" then
    let filtered := applyFilters (filters st) (data st) in
    setFilteredData filtered st
  else st.

(** [activeFiltersCount], memoised on [filters]. *)
Definition activeFiltersCount (filters : ColumnFilter) : nat :=
  length (Array_filter (Object_values filters)
            (fun val => negb (String.eqb (trim val) EmptyString))).

End Debounced.

(** ** The debounced viewer, reading through [Object.prototype] *)

Module WithPrototype.
Import JS.

(** [row[column]?.toLowerCase() || '']: the call throws when [row[column]]
    is an inherited member, which has no [toLowerCase]. *)
Definition cellValue (row : TableRow) (column : string) : completion string :=
  match Prototype.get row column with
  | Prototype.Own s => mret (or_else (Some (toLowerCase s)) EmptyString)
  | Prototype.Undefined => mret (or_else None EmptyString)
  | Prototype.Inherited =>
      TypeError "row[column]?.toLowerCase is not a function"
  end.

(** [applyFilters(filtersToApply, dataToFilter)] *)
Definition applyFilters (filtersToApply : ColumnFilter)
    (dataToFilter : list TableRow) : completion (list TableRow) :=
  if every (Object_values filtersToApply)
       (fun val => negb (truthy (trim val)))
  then mret dataToFilter
  else
    JSThrowing.Array_filter_throwing dataToFilter (fun row =>
      JSThrowing.every_throwing (Object_entries filtersToApply)
        (fun '(column, filterValue) =>
           if negb (truthy (trim filterValue)) then mret true else
           cellValue ← cellValue row column;
           let searchValue := trim (toLowerCase filterValue) in
           mret (includes cellValue searchValue))).

(** The filtering effect, run with the settled filters: what
    [applyFilters] throws is caught and logged, and the state is left. *)
Definition filterEffect (st : Debounced.State) : Debounced.State :=
  if Nat.eqb (length (Debounced.data st)) 0 then st
  else
    match applyFilters (Debounced.filters st) (Debounced.data st) with
    | Normal filtered => Debounced.setFilteredData filtered st
    | TypeError _ => st
    end.

End WithPrototype.

(** ** The multi-column viewer with an explicit apply step *)

Module MultiColumn.
Import JS.

(** The scan of [parseCSVLine]: the loop variable [i] and the three
    locals.  The loop ends when [i] reaches [line.length]; an escaped
    quote advances [i] twice. *)
Equations? parseCSVLine_loop (line : string) (i : nat)
    (result : list string) (currentValue : string) (inQuotes : bool)
    : list string by wf (String.length line - i) lt :=
parseCSVLine_loop line i result currentValue inQuotes
    with lt_dec i (String.length line) := {
  | right _ => push result (trim currentValue)
  | left _ =>
      let char := String.get i line in
      let nextChar := String.get (i + 1) line in
      if strictEq char dquote then
        if inQuotes && strictEq nextChar dquote then
          parseCSVLine_loop line (i + 1 + 1) result
            (currentValue +:+ str dquote) inQuotes
        else
          parseCSVLine_loop line (i + 1) result currentValue (negb inQuotes)
      else if strictEq char comma && negb inQuotes then
        parseCSVLine_loop line (i + 1) (push result (trim currentValue))
          EmptyString inQuotes
      else
        parseCSVLine_loop line (i + 1) result (append currentValue char)
          inQuotes }.
Proof. all: lia. Qed.

Definition parseCSVLine (line : string) : list string :=
  parseCSVLine_loop line 0 [] EmptyString false.

(** [parseCSV]: [lines[0]] and [lines[i]] are dereferenced, so the body
    is a [completion]; [continue] leaves [result] as it is. *)
Definition parseCSV (csvText : string) : completion (list TableRow) :=
  let lines := split LF csvText in
  let result : list TableRow := [] in
  if Nat.eqb (length lines) 0 then mret result else
  line0 ← deref (lines !! 0);
  let headers := map trim (split comma line0) in
  for_range 1 (length lines - 1)
    (fun i result =>
       line_i ← deref (lines !! i);
       let currentLine := trim line_i in
       if negb (truthy currentLine) then mret result else
       let values := parseCSVLine currentLine in
       let row : TableRow := ∅ in
       let row :=
         forEach headers 0
           (fun header index row =>
              Prototype.set header (or_else (values !! index) EmptyString)
                row)
           row in
       mret (push result row))
    result.

(** The rows the table body maps to table rows. *)
Definition renderedRows (filteredData : list TableRow) : list TableRow :=
  slice filteredData 0 100.

(** The component state.  A function of the component reads the state
    variables of the render it was created in, [render], and queues its
    writes; [st] is the state the queued writes are applied to.  An event
    fired on a settled render [st] leaves [handler st st]. *)
Inductive ErrorMessage : Type :=
| LoadFailed (status : nat)
| Thrown (message : string).

Record State : Type := mkState {
  data : list TableRow;
  filteredData : list TableRow;
  filters : ColumnFilter;
  isLoading : bool;
  error : option ErrorMessage;
  headers : list string;
  showFilters : bool }.

Definition initialState : State :=
  {| data := []; filteredData := []; filters := ∅; isLoading := true;
     error := None; headers := []; showFilters := true |}.

Definition setData v st :=
  mkState v (filteredData st) (filters st) (isLoading st) (error st)
    (headers st) (showFilters st).
Definition setFilteredData v st :=
  mkState (data st) v (filters st) (isLoading st) (error st)
    (headers st) (showFilters st).
Definition setFilters v st :=
  mkState (data st) (filteredData st) v (isLoading st) (error st)
    (headers st) (showFilters st).
Definition setIsLoading v st :=
  mkState (data st) (filteredData st) (filters st) v (error st)
    (headers st) (showFilters st).
Definition setError v st :=
  mkState (data st) (filteredData st) (filters st) (isLoading st) v
    (headers st) (showFilters st).
Definition setHeaders v st :=
  mkState (data st) (filteredData st) (filters st) (isLoading st) (error st)
    v (showFilters st).
Definition setShowFilters v st :=
  mkState (data st) (filteredData st) (filters st) (isLoading st) (error st)
    (headers st) v.

Record Response : Type := mkResponse {
  ok : bool;
  status : nat;
  text : string }.

(** [loadCSVData], once the fetch has resolved with [response]. *)
Definition loadCSVData (response : Response) (st : State) : State :=
  let st := setIsLoading true st in
  let st := setError None st in
  if negb (ok response) then
    setIsLoading false (setError (Some (LoadFailed (status response))) st)
  else
    let csvText := text response in
    match parseCSV csvText with
    | Normal parsedData =>
        let st :=
          match parsedData with
          | row0 :: _ =>
              let st := setHeaders (Object_keys row0) st in
              let st := setData parsedData st in
              let st := setFilteredData parsedData st in
              let initialFilters : ColumnFilter := ∅ in
              let initialFilters :=
                forEach (Object_keys row0) 0
                  (fun header _ initialFilters =>
                     <[header := EmptyString]> initialFilters)
                  initialFilters in
              setFilters initialFilters st
          | [] => st
          end in
        setIsLoading false st
    | TypeError message =>
        setIsLoading false (setError (Some (Thrown message)) st)
    end.

(** [applyFilters]: reads [filters] and [data] of its render. *)
Definition applyFilters (render st : State) : State :=
  if every (Object_values (filters render))
       (fun val => negb (truthy (trim val)))
  then setFilteredData (data render) st
  else
    let filtered :=
      Array_filter (data render) (fun row =>
        every (Object_entries (filters render))
          (fun '(column, filterValue) =>
             if negb (truthy (trim filterValue)) then true else
             let cellValue :=
               or_else (toLowerCase <$> row !! column) EmptyString in
             let searchValue := trim (toLowerCase filterValue) in
             includes cellValue searchValue)) in
    setFilteredData filtered st.

(** [resetAllFilters]: reads [headers] and [data] of its render. *)
Definition resetAllFilters (render st : State) : State :=
  let resetFilters : ColumnFilter := ∅ in
  let resetFilters :=
    forEach (headers render) 0
      (fun header _ resetFilters => <[header := EmptyString]> resetFilters)
      resetFilters in
  let st := setFilters resetFilters st in
  setFilteredData (data render) st.

(** [resetFilter] and [handleFilterChange] update the queued [filters]. *)
Definition resetFilter (column : string) (st : State) : State :=
  setFilters (<[column := EmptyString]> (filters st)) st.

Definition handleFilterChange (column value : string) (st : State) : State :=
  setFilters (<[column := value]> (filters st)) st.

(** [handleKeyDown], given [e.key]. *)
Definition handleKeyDown (key : string) (render st : State) : State :=
  if String.eqb key "Enter" then applyFilters render st else st.

(** [activeFiltersCount], memoised on [filters]. *)
Definition activeFiltersCount (filters : ColumnFilter) : nat :=
  length (Array_filter (Object_values filters)
            (fun val => negb (String.eqb (trim val) EmptyString))).



End MultiColumn.

(** ** The fifth-column viewer *)

Module FifthColumn.
Import JS.

(** The scan of [parseCSVLine]: the loop variable [i] and the three
    locals.  The loop ends when [i] reaches [line.length]; an escaped
    quote advances [i] twice. *)
Equations? parseCSVLine_loop (line : string) (i : nat)
    (result : list string) (currentValue : string) (inQuotes : bool)
    : list string by wf (String.length line - i) lt :=
parseCSVLine_loop line i result currentValue inQuotes
    with lt_dec i (String.length line) := {
  | right _ => push result (trim currentValue)
  | left _ =>
      let char := String.get i line in
      let nextChar := String.get (i + 1) line in
      if strictEq char dquote then
        if inQuotes && strictEq nextChar dquote then
          parseCSVLine_loop line (i + 1 + 1) result
            (currentValue +:+ str dquote) inQuotes
        else
          parseCSVLine_loop line (i + 1) result currentValue (negb inQuotes)
      else if strictEq char comma && negb inQuotes then
        parseCSVLine_loop line (i + 1) (push result (trim currentValue))
          EmptyString inQuotes
      else
        parseCSVLine_loop line (i + 1) result (append currentValue char)
          inQuotes }.
Proof. all: lia. Qed.

Definition parseCSVLine (line : string) : list string :=
  parseCSVLine_loop line 0 [] EmptyString false.

(** [parseCSV]: [lines[0]] and [lines[i]] are dereferenced, so the body
    is a [completion]; [continue] leaves [result] as it is. *)
Definition parseCSV (csvText : string) : completion (list TableRow) :=
  let lines := split LF csvText in
  let result : list TableRow := [] in
  if Nat.eqb (length lines) 0 then mret result else
  line0 ← deref (lines !! 0);
  let headers := map trim (split comma line0) in
  for_range 1 (length lines - 1)
    (fun i result =>
       line_i ← deref (lines !! i);
       let currentLine := trim line_i in
       if negb (truthy currentLine) then mret result else
       let values := parseCSVLine currentLine in
       let row : TableRow := ∅ in
       let row :=
         forEach headers 0
           (fun header index row =>
              Prototype.set header (or_else (values !! index) EmptyString)
                row)
           row in
       mret (push result row))
    result.

(** The component state; [render] and [st] as in the multi-column
    viewer. *)
Inductive ErrorMessage : Type :=
| LoadFailed (status : nat)
| Thrown (message : string).

Record State : Type := mkState {
  data : list TableRow;
  filteredData : list TableRow;
  filterValue : string;
  isLoading : bool;
  error : option ErrorMessage }.

Definition initialState : State :=
  {| data := []; filteredData := []; filterValue := EmptyString;
     isLoading := true; error := None |}.

Definition setData v st :=
  mkState v (filteredData st) (filterValue st) (isLoading st) (error st).
Definition setFilteredData v st :=
  mkState (data st) v (filterValue st) (isLoading st) (error st).
Definition setFilterValue v st :=
  mkState (data st) (filteredData st) v (isLoading st) (error st).
Definition setIsLoading v st :=
  mkState (data st) (filteredData st) (filterValue st) v (error st).
Definition setError v st :=
  mkState (data st) (filteredData st) (filterValue st) (isLoading st) v.

Record Response : Type := mkResponse {
  ok : bool;
  status : nat;
  text : string }.

(** [loadCSVData], once the fetch has resolved with [response]; the
    error thrown for a response that is not ok is caught below it. *)
Definition loadCSVData (response : Response) (st : State) : State :=
  let st := setIsLoading true st in
  let st := setError None st in
  if negb (ok response) then
    setIsLoading false (setError (Some (LoadFailed (status response))) st)
  else
    let csvText := text response in
    match parseCSV csvText with
    | Normal parsedData =>
        let st := setData parsedData st in
        let st := setFilteredData parsedData st in
        setIsLoading false st
    | TypeError message =>
        setIsLoading false (setError (Some (Thrown message)) st)
    end.

(** [applyFilter]: reads [filterValue] and [data] of its render.
    [keys] is [Object.keys]: the own keys of a row in its property
    order; an [undefined] or empty fifth key is falsy.
    [row[fifthColumnKey]] is dereferenced, so the callback is a
    [completion]. *)
Definition applyFilter (keys : TableRow -> list string)
    (render st : State) : completion State :=
  if negb (truthy (trim (filterValue render))) then
    mret (setFilteredData (data render) st)
  else
    filtered ←
      JSThrowing.Array_filter_throwing (data render) (fun row =>
        let keys := keys row in
        match keys !! 4 with
        | None => mret false
        | Some fifthColumnKey =>
            if negb (truthy fifthColumnKey) then mret false else
            cell ← deref (row !! fifthColumnKey);
            let cellValue := toLowerCase cell in
            let searchValue := trim (toLowerCase (filterValue render)) in
            mret (includes cellValue searchValue)
        end);
    mret (setFilteredData filtered st).

(** [handleKeyPress], given [e.key]. *)
Definition handleKeyPress (keys : TableRow -> list string) (key : string)
    (render st : State) : completion State :=
  if String.eqb key "Enter" then applyFilter keys render st else mret st.

(** [resetFilter]: reads [data] of its render. *)
Definition resetFilter (render st : State) : State :=
  let st := setFilterValue EmptyString st in
  setFilteredData (data render) st.

End FifthColumn.

(** ** The specification's reading of the operations *)

Module Spec.
Import JS.

(** The field-splitting algorithm as the specification words it: a scan
    over the characters with the "inside quoted field" state and the
    current-field buffer. *)
Fixpoint splitFields (chars : string) (insideQuoted : bool)
    (buffer : string) : list string :=
  match chars with
  | EmptyString => [trim buffer]
  | String c rest =>
      if Ascii.eqb c dquote then
        match insideQuoted, rest with
        | true, String c' rest' =>
            if Ascii.eqb c' dquote
            then splitFields rest' insideQuoted (buffer +:+ str dquote)
            else splitFields rest (negb insideQuoted) buffer
        | _, _ => splitFields rest (negb insideQuoted) buffer
        end
      else if Ascii.eqb c comma && negb insideQuoted then
        trim buffer :: splitFields rest insideQuoted EmptyString
      else splitFields rest insideQuoted (buffer +:+ str c)
  end.

(** [t] occurs in [s] as a substring. *)
Definition Substring (t s : string) : Prop :=
  exists a b : string, s = a +:+ t +:+ b.

(** The value of a row at a column, the empty string where the row has
    no such column. *)
Definition cell (row : TableRow) (column : string) : string :=
  default EmptyString (row !! column).

(** A row satisfies a filter map: every entry whose trimmed value is not
    empty occurs, case-folded, in the case-folded cell of its column. *)
Definition matches (filters : ColumnFilter) (row : TableRow) : Prop :=
  forall column filterValue,
    filters !! column = Some filterValue ->
    trim filterValue <> EmptyString ->
    Substring (toLowerCase (trim filterValue))
              (toLowerCase (cell row column)).

(** The first [min n (length rows)] rows. *)
Definition limit {A} (rows : list A) (n : nat) : list A :=
  take (min n (length rows)) rows.

End Spec.

(** ** Names for the parts of [parseCSV] the properties speak about *)

Section Parts.
Import JS.

(** The column names: the fields of line 0, each trimmed. *)
Definition headerNames (csvText : string) : list string :=
  map trim (split comma (hd EmptyString (split LF csvText))).

(** The lines after line 0 that are not empty once trimmed. *)
Definition dataLines (csvText : string) : list string :=
  filter (fun line => trim line <> EmptyString) (tail (split LF csvText)).

(** The object the [forEach] over the headers fills for one line. *)
Definition rowOf (headers values : list string) : TableRow :=
  forEach headers 0
    (fun header index row =>
       Prototype.set header (or_else (values !! index) EmptyString) row)
    (∅ : TableRow).

(** [row] is the row [parseCSV] returns for the data line [line]: they
    stand at the same position among the rows and the data lines. *)
Definition produces (csvText line : string) (row : TableRow) : Prop :=
  exists (rows : list TableRow) (k : nat),
    Debounced.parseCSV csvText = Normal rows /\
    dataLines csvText !! k = Some line /\
    rows !! k = Some row.

(** The test [applyFilters] runs on one row. *)
Definition rowPasses (filters : ColumnFilter) (row : TableRow) : bool :=
  every (Object_entries filters) (fun '(column, filterValue) =>
    if negb (truthy (trim filterValue)) then true else
    let cellValue := or_else (toLowerCase <$> row !! column) EmptyString in
    let searchValue := trim (toLowerCase filterValue) in
    includes cellValue searchValue).

(** The characters of [s] from position [i] on. *)
Fixpoint skip (i : nat) (s : string) : string :=
  match i, s with
  | O, _ => s
  | S i', String _ s' => skip i' s'
  | S _, EmptyString => EmptyString
  end.

(** The inputs of the specification's examples. *)
Definition quoted_comma_line : string :=
  str dquote +:+ "x,y" +:+ str dquote +:+ ",z".
Definition escaped_quote_line : string :=
  str dquote +:+ "he said " +:+ str dquote +:+ str dquote +:+ "hi"
    +:+ str dquote +:+ str dquote +:+ str dquote.
Definition he_said_hi : string :=
  "he said " +:+ str dquote +:+ "hi" +:+ str dquote.
Definition short_row_text : string := "a,b,c" +:+ str LF +:+ "1,2".
Definition blank_line_text : string :=
  "a,b" +:+ str LF +:+ "1,2" +:+ str LF +:+ str LF +:+ "3,4".
Definition duplicate_header_text : string :=
  "a,b,a" +:+ str LF +:+ "1,2,3".

End Parts.

(** ** Names for the further properties *)

Section MoreParts.
Import JS.

(** The carriage return. *)
Definition CR : ascii := "013"%char.

(** The number of occurrences of a character in a string. *)
Fixpoint count_char (c : ascii) (s : string) : nat :=
  match s with
  | EmptyString => 0
  | String a s' => (if Ascii.eqb a c then 1 else 0) + count_char c s'
  end.

(** The text with a carriage return put before every line feed. *)
Fixpoint crlf (s : string) : string :=
  match s with
  | EmptyString => EmptyString
  | String c s' =>
      if Ascii.eqb c LF then String CR (String LF (crlf s'))
      else String c (crlf s')
  end.

(** [l'] is [l], possibly followed by one carriage return. *)
Definition cr_suffix (l l' : string) : Prop :=
  l' = l \/ l' = l +:+ str CR.

(** A string with no white space at either end. *)
Definition trimmed (s : string) : Prop := trim s = s.

(** [keys] enumerates the own keys of every row, in some order. *)
Definition enumerates_keys (keys : TableRow -> list string) : Prop :=
  forall row : TableRow, keys row ≡ₚ Object_keys row.

(** The usual quoting of a field: every double quote doubled, the whole
    put between double quotes; and a line of quoted fields, with commas
    between them. *)
Fixpoint escape (field : string) : string :=
  match field with
  | EmptyString => EmptyString
  | String c field' =>
      if Ascii.eqb c dquote then String dquote (String dquote (escape field'))
      else String c (escape field')
  end.

Definition quote (field : string) : string :=
  str dquote +:+ escape field +:+ str dquote.

Fixpoint quotedLine (field : string) (fields : list string) : string :=
  match fields with
  | [] => quote field
  | field' :: fields' => quote field +:+ str comma +:+ quotedLine field' fields'
  end.

(** The test [applyFilter] of the fifth-column viewer runs on one row,
    for the filter value [filterValue]. *)
Definition fifthColumnPasses (keys : TableRow -> list string)
    (filterValue : string) (row : TableRow) : bool :=
  match keys row !! 4 with
  | Some fifthColumnKey =>
      truthy fifthColumnKey &&
      includes (toLowerCase (default EmptyString (row !! fifthColumnKey)))
        (trim (toLowerCase filterValue))
  | None => false
  end.

(** No read of a filtered column of a row finds an inherited member:
    for every row and every entry of the filter map, the value is blank
    or the column is not an inherited member that the row lacks. *)
Definition reads_own (filters : ColumnFilter) (rows : list TableRow) : Prop :=
  Forall
    (fun row : TableRow =>
       map_Forall
         (fun column filterValue =>
            trim filterValue = EmptyString \/
            Prototype.get row column <> Prototype.Inherited)
         filters)
    rows.

(** The texts whose header line names [__proto__]. *)
Definition proto_header_text : string :=
  "__proto__,b" +:+ str LF +:+ "1,2".
Definition proto_twice_text : string :=
  "__proto__,__proto__" +:+ str LF +:+ "1,2".

(** The state an event handler leaves when fired on a settled render. *)
Definition fire {St} (handler : St -> St -> St) (st : St) : St :=
  handler st st.

End MoreParts.

#[local] Arguments skip : simpl never.

(** Two loops of the same shape agree once the first is unfolded. *)
Ltac loop_agrees unfolding :=
  rewrite unfolding;
  match goal with
  | Heq : lt_dec _ _ = _ |- _ => simpl; rewrite Heq; simpl
  end;
  repeat match goal with
         | IH : _ = Debounced.parseCSVLine_loop _ _ _ _ _ |- _ =>
             rewrite IH; clear IH
         end;
  reflexivity.

(* ===================================================================== *)
(** * Theorems *)
(* ===================================================================== *)

Import JS.

(** ** Strings *)

Lemma skip_get (i : nat) (s : string) :
  skip i s = match String.get i s with
             | Some c => String c (skip (S i) s)
             | None => EmptyString
             end.
Proof.
  revert s. induction i as [|i IH]; intros [|c s]; try reflexivity.
  change (skip (S i) (String c s)) with (skip i s).
  change (skip (S (S i)) (String c s)) with (skip (S i) s).
  apply IH.
Qed.

Lemma get_ge (i : nat) (s : string) :
  ~ i < String.length s -> String.get i s = None.
Proof.
  revert s. induction i as [|i IH]; intros [|c s]; simpl; intros H;
    try reflexivity; try lia.
  apply IH. lia.
Qed.

Lemma get_lt (i : nat) (s : string) :
  i < String.length s -> String.get i s <> None.
Proof.
  revert i. induction s as [|a s IH]; simpl; intros i Hi; [lia|].
  destruct i; [discriminate|]. apply IH. lia.
Qed.

Lemma split_cons (sep : ascii) (s : string) :
  exists l0 rest, split sep s = l0 :: rest.
Proof.
  induction s as [|c s [l0 [rest IH]]]; simpl; [eauto|].
  destruct (Ascii.eqb c sep); [eauto|]. rewrite IH. eauto.
Qed.

Lemma truthy_false (s : string) : truthy s = false <-> s = EmptyString.
Proof. destruct s; simpl; split; congruence. Qed.

Lemma truthy_true (s : string) : truthy s = true <-> s <> EmptyString.
Proof. destruct s; simpl; split; congruence. Qed.

Lemma or_else_default (v : option string) :
  or_else v EmptyString = default EmptyString v.
Proof. destruct v as [[|c s]|]; reflexivity. Qed.

Lemma startsWith_spec (s t : string) :
  startsWith s t = true <-> exists b, s = t +:+ b.
Proof.
  revert s. induction t as [|c t IH]; intros s; simpl.
  - split; [eauto|reflexivity].
  - destruct s as [|a s].
    + split; [discriminate|]. intros [b Hb]. discriminate.
    + rewrite andb_true_iff, Ascii.eqb_eq, IH. split.
      * intros [-> [b ->]]. eauto.
      * intros [b Hb]. injection Hb as -> ->. eauto.
Qed.

Lemma includes_spec (s t : string) :
  includes s t = true <-> Spec.Substring t s.
Proof.
  unfold Spec.Substring. induction s as [|c s IH]; simpl.
  - rewrite orb_false_r, startsWith_spec. split.
    + intros [b Hb]. exists EmptyString, b. exact Hb.
    + intros [[|a0 a] [b Hb]]; [eauto|discriminate].
  - rewrite orb_true_iff, startsWith_spec, IH. split.
    + intros [[b Hb]|[a [b Hb]]].
      * exists EmptyString, b. exact Hb.
      * exists (String c a), b. simpl. rewrite Hb. reflexivity.
    + intros [[|a0 a] [b Hb]]; simpl in Hb.
      * left. eauto.
      * right. injection Hb as -> ->. eauto.
Qed.

Lemma is_white_toLowerCase_char (c : ascii) :
  is_white (toLowerCase_char c) = is_white c.
Proof. destruct c as [[] [] [] [] [] [] [] []]; reflexivity. Qed.

Lemma trimStart_toLowerCase (s : string) :
  trimStart (toLowerCase s) = toLowerCase (trimStart s).
Proof.
  induction s as [|c s IH]; simpl; [reflexivity|].
  rewrite is_white_toLowerCase_char.
  destruct (is_white c); [exact IH|reflexivity].
Qed.

Lemma trimEnd_toLowerCase (s : string) :
  trimEnd (toLowerCase s) = toLowerCase (trimEnd s).
Proof.
  induction s as [|c s IH]; simpl; [reflexivity|].
  rewrite IH, is_white_toLowerCase_char.
  destruct (trimEnd s); simpl; [destruct (is_white c)|]; reflexivity.
Qed.

Lemma trim_toLowerCase (s : string) :
  trim (toLowerCase s) = toLowerCase (trim s).
Proof.
  unfold trim. rewrite trimStart_toLowerCase. apply trimEnd_toLowerCase.
Qed.

(** ** The character scan *)

Lemma parseCSVLine_loop_scan line i result currentValue inQuotes :
  Debounced.parseCSVLine_loop line i result currentValue inQuotes
  = result ++ Spec.splitFields (skip i line) inQuotes currentValue.
Proof.
  funelim (Debounced.parseCSVLine_loop line i result currentValue inQuotes).
  - replace (i + 1 + 1) with (S (S i)) in * by lia.
    replace (i + 1) with (S i) in * by lia.
    rewrite (skip_get i line).
    destruct (String.get i line) as [c|] eqn:Hc; simpl.
    + destruct (Ascii.eqb c dquote) eqn:Hq.
      * rewrite (skip_get (S i) line).
        destruct inQuotes; simpl in *.
        -- destruct (String.get (S i) line) as [c'|] eqn:Hc'; simpl.
           ++ destruct (Ascii.eqb c' dquote) eqn:Hq'.
              ** rewrite H. reflexivity.
              ** rewrite H0, (skip_get (S i) line), Hc'. simpl.
                 rewrite Hq'. reflexivity.
           ++ rewrite H0, (skip_get (S i) line), Hc'. reflexivity.
        -- rewrite H0, (skip_get (S i) line). reflexivity.
      * destruct (Ascii.eqb c comma && negb inQuotes) eqn:Hk.
        -- rewrite H1. unfold push. rewrite <- app_assoc. reflexivity.
        -- simpl in H2. rewrite H2. reflexivity.
    + exfalso. exact (get_lt i line l Hc).
  - rewrite (skip_get i line), (get_ge i line n). reflexivity.
Qed.

Lemma MultiColumn_loop line i result currentValue inQuotes :
  MultiColumn.parseCSVLine_loop line i result currentValue inQuotes
  = Debounced.parseCSVLine_loop line i result currentValue inQuotes.
Proof.
  funelim (MultiColumn.parseCSVLine_loop line i result currentValue inQuotes);
    loop_agrees Debounced.parseCSVLine_loop_equation_1.
Qed.

Lemma FifthColumn_loop line i result currentValue inQuotes :
  FifthColumn.parseCSVLine_loop line i result currentValue inQuotes
  = Debounced.parseCSVLine_loop line i result currentValue inQuotes.
Proof.
  funelim (FifthColumn.parseCSVLine_loop line i result currentValue inQuotes);
    loop_agrees Debounced.parseCSVLine_loop_equation_1.
Qed.

(** ** The line loop of [parseCSV] *)

Lemma for_range_ext {St} (from count : nat)
    (f g : nat -> St -> completion St) (st : St) :
  (forall i s, f i s = g i s) ->
  for_range from count f st = for_range from count g st.
Proof.
  intros H. revert from st.
  induction count as [|count IH]; intros from st; simpl; [reflexivity|].
  rewrite H. destruct (g from st); simpl; [apply IH|reflexivity].
Qed.

(** A loop over the indices of [rest] inside [pre ++ rest] whose body
    never throws on a defined line is a fold over [rest]. *)
Lemma for_range_lines (pre rest : list string)
    (step : string -> list TableRow -> list TableRow)
    (body : nat -> list TableRow -> completion (list TableRow))
    (acc : list TableRow) :
  (forall i l r, (pre ++ rest) !! i = Some l -> body i r = Normal (step l r)) ->
  for_range (length pre) (length rest) body acc
  = Normal (fold_left (fun r l => step l r) rest acc).
Proof.
  revert pre acc. induction rest as [|l rest IH]; intros pre acc Hb; simpl.
  - reflexivity.
  - rewrite (Hb (length pre) l acc).
    + specialize (IH (pre ++ [l]) (step l acc)).
      rewrite length_app in IH. simpl in IH.
      replace (length pre + 1) with (S (length pre)) in IH by lia.
      apply IH. intros i l' r. rewrite <- app_assoc. apply Hb.
    + rewrite lookup_app_r by lia. rewrite Nat.sub_diag. reflexivity.
Qed.

Lemma filter_truthy_trim (lines : list string) :
  List.filter (fun l => truthy (trim l)) lines
  = filter (fun line => trim line <> EmptyString) lines.
Proof.
  induction lines as [|l lines IH]; simpl; [reflexivity|].
  rewrite filter_cons, IH.
  destruct (truthy (trim l)) eqn:Ht.
  - apply truthy_true in Ht. rewrite decide_True by exact Ht. reflexivity.
  - apply truthy_false in Ht. rewrite decide_False by congruence. reflexivity.
Qed.

Lemma fold_left_rows (f : string -> TableRow) (lines : list string)
    (acc : list TableRow) :
  fold_left (fun r l => if negb (truthy (trim l)) then r else push r (f l))
    lines acc
  = acc ++ map f (List.filter (fun l => truthy (trim l)) lines).
Proof.
  revert acc. induction lines as [|l lines IH]; intros acc; simpl.
  - rewrite app_nil_r. reflexivity.
  - rewrite IH. destruct (truthy (trim l)); simpl; [|reflexivity].
    unfold push. rewrite <- app_assoc. reflexivity.
Qed.

Lemma parseCSV_rows (csvText : string) :
  Debounced.parseCSV csvText
  = Normal (map (fun line => rowOf (headerNames csvText)
                               (Debounced.parseCSVLine (trim line)))
              (dataLines csvText)).
Proof.
  unfold Debounced.parseCSV, headerNames, dataLines.
  destruct (split_cons LF csvText) as [l0 [rest ->]]. simpl.
  rewrite Nat.sub_0_r.
  rewrite (for_range_lines [l0] rest
    (fun l r => if negb (truthy (trim l)) then r
                else push r (rowOf (map trim (split comma l0))
                               (Debounced.parseCSVLine (trim l))))).
  - rewrite fold_left_rows, filter_truthy_trim. reflexivity.
  - intros i l r Hl. change ([l0] ++ rest) with (l0 :: rest) in Hl.
    rewrite Hl. simpl. destruct (truthy (trim l)); reflexivity.
Qed.

Lemma produces_rowOf (csvText line : string) (row : TableRow) :
  produces csvText line row ->
  row = rowOf (headerNames csvText) (Debounced.parseCSVLine (trim line)).
Proof.
  intros [rows [k [Hrows [Hline Hrow]]]].
  rewrite parseCSV_rows in Hrows. injection Hrows as <-.
  rewrite list_lookup_fmap, Hline in Hrow. simpl in Hrow. congruence.
Qed.

(** Every returned row is the row of some data line. *)
Lemma produces_covers (csvText : string) (rows : list TableRow)
    (row : TableRow) :
  Debounced.parseCSV csvText = Normal rows -> row ∈ rows ->
  exists line, produces csvText line row.
Proof.
  intros Hrows Hin. apply list_elem_of_lookup in Hin as [k Hk].
  pose proof Hrows as Hmap. rewrite parseCSV_rows in Hmap.
  injection Hmap as Hmap. pose proof Hk as Hk'.
  rewrite <- Hmap, list_lookup_fmap in Hk'.
  destruct (dataLines csvText !! k) as [line|] eqn:Hline; [|discriminate].
  exists line, rows, k. split; [exact Hrows|]. split; [exact Hline|exact Hk].
Qed.

(** The emptiness test on [lines] never succeeds, and the column names of
    the empty text are the one empty name; [parseCSV] returns rows only. *)
Lemma headerNames_empty : headerNames EmptyString = [EmptyString].
Proof. reflexivity. Qed.

Lemma MultiColumn_parseCSV (csvText : string) :
  MultiColumn.parseCSV csvText = Debounced.parseCSV csvText.
Proof.
  unfold MultiColumn.parseCSV, Debounced.parseCSV.
  destruct (Nat.eqb _ 0); [reflexivity|].
  destruct (split LF csvText !! 0); simpl; [|reflexivity].
  apply for_range_ext. intros i r.
  destruct (split LF csvText !! i); simpl; [|reflexivity].
  unfold MultiColumn.parseCSVLine, Debounced.parseCSVLine.
  rewrite MultiColumn_loop. reflexivity.
Qed.

Lemma FifthColumn_parseCSV (csvText : string) :
  FifthColumn.parseCSV csvText = Debounced.parseCSV csvText.
Proof.
  unfold FifthColumn.parseCSV, Debounced.parseCSV.
  destruct (Nat.eqb _ 0); [reflexivity|].
  destruct (split LF csvText !! 0); simpl; [|reflexivity].
  apply for_range_ext. intros i r.
  destruct (split LF csvText !! i); simpl; [|reflexivity].
  unfold FifthColumn.parseCSVLine, Debounced.parseCSVLine.
  rewrite FifthColumn_loop. reflexivity.
Qed.

(** ** The row built for one line *)

Lemma set_proto (v : string) (obj : TableRow) :
  obj !! "__proto__" = None -> Prototype.set "__proto__" v obj = obj.
Proof. intros H. unfold Prototype.set. rewrite H. reflexivity. Qed.

Lemma set_other (key v : string) (obj : TableRow) :
  key <> "__proto__" -> Prototype.set key v obj = <[key := v]> obj.
Proof.
  intros H. unfold Prototype.set. destruct (obj !! key); [reflexivity|].
  destruct (String.eqb_spec key "__proto__"); [contradiction|reflexivity].
Qed.

Lemma set_lookup_ne (key v : string) (obj : TableRow) (h : string) :
  key <> h -> Prototype.set key v obj !! h = obj !! h.
Proof.
  intros H. unfold Prototype.set.
  destruct (obj !! key); [apply lookup_insert_ne, H|].
  destruct (String.eqb key "__proto__"); [reflexivity|].
  apply lookup_insert_ne, H.
Qed.

Section RowBuilding.
Context (values : list string).

Let assign (header : string) (index : nat) (row : TableRow) : TableRow :=
  Prototype.set header (or_else (values !! index) EmptyString) row.

Lemma forEach_assign_proto (hs : list string) (k : nat) (row : TableRow) :
  row !! "__proto__" = None ->
  forEach hs k assign row !! "__proto__" = None.
Proof.
  revert k row. induction hs as [|h hs IH]; intros k row Hrow; simpl.
  - exact Hrow.
  - apply IH. unfold assign.
    destruct (decide (h = "__proto__")) as [->|Hne].
    + rewrite set_proto by exact Hrow. exact Hrow.
    + rewrite set_lookup_ne by exact Hne. exact Hrow.
Qed.

Lemma forEach_assign_dom (hs : list string) (k : nat) (row : TableRow) :
  row !! "__proto__" = None ->
  dom (forEach hs k assign row)
  = dom row ∪ list_to_set (filter (fun h => h <> "__proto__") hs).
Proof.
  revert k row. induction hs as [|h hs IH]; intros k row Hrow; simpl.
  - rewrite (right_id_L ∅ (∪)). reflexivity.
  - rewrite filter_cons. unfold assign at 2.
    destruct (decide (h <> "__proto__")) as [Hne|Heq].
    + rewrite IH.
      * rewrite set_other by exact Hne. rewrite dom_insert_L.
        simpl. rewrite (comm_L (∪) {[h]} (dom row)), <- (assoc_L (∪)).
        reflexivity.
      * rewrite set_lookup_ne by exact Hne. exact Hrow.
    + assert (h = "__proto__") as -> by (destruct (decide (h = "__proto__")); [assumption|contradiction]).
      rewrite set_proto by exact Hrow. apply IH, Hrow.
Qed.

Lemma forEach_assign_notin (hs : list string) (k : nat) (row : TableRow)
    (h : string) :
  h ∉ hs -> forEach hs k assign row !! h = row !! h.
Proof.
  revert k row. induction hs as [|h' hs IH]; intros k row Hn; simpl.
  - reflexivity.
  - apply not_elem_of_cons in Hn as [Hne Hn].
    rewrite IH by exact Hn. unfold assign.
    apply set_lookup_ne. congruence.
Qed.

Lemma forEach_assign_last (hs : list string) (k : nat) (row : TableRow)
    (i : nat) (h : string) :
  hs !! i = Some h -> h <> "__proto__" -> h ∉ drop (S i) hs ->
  forEach hs k assign row !! h
  = Some (or_else (values !! (k + i)) EmptyString).
Proof.
  intros Hi Hne. revert k row i Hi.
  induction hs as [|h' hs IH]; intros k row i Hi Hlast.
  - discriminate.
  - destruct i as [|i]; simpl in *.
    + injection Hi as ->. rewrite drop_0 in Hlast.
      rewrite forEach_assign_notin by exact Hlast.
      unfold assign. rewrite set_other by exact Hne.
      rewrite lookup_insert_eq, Nat.add_0_r. reflexivity.
    + rewrite (IH (S k) _ i Hi Hlast).
      replace (S k + i) with (k + S i) by lia. reflexivity.
Qed.

End RowBuilding.

Lemma forEach_ext {A St} (a : list A) (k : nat)
    (f g : A -> nat -> St -> St) (st : St) :
  (forall x i s, k <= i < k + length a -> f x i s = g x i s) ->
  forEach a k f st = forEach a k g st.
Proof.
  revert k st. induction a as [|x a IH]; intros k st H; simpl; [reflexivity|].
  rewrite H by (simpl; lia). apply IH.
  intros y i s Hi. apply H. simpl. lia.
Qed.

Lemma rowOf_dom (headers values : list string) :
  dom (rowOf headers values)
  = list_to_set (filter (fun h => h <> "__proto__") headers).
Proof.
  unfold rowOf. rewrite forEach_assign_dom by apply lookup_empty.
  rewrite dom_empty_L. apply (left_id_L ∅ (∪)).
Qed.

Lemma rowOf_proto (headers values : list string) :
  rowOf headers values !! "__proto__" = None.
Proof. unfold rowOf. apply forEach_assign_proto, lookup_empty. Qed.

Lemma rowOf_lookup_last (headers values : list string) (i : nat) (h : string) :
  headers !! i = Some h -> h <> "__proto__" -> h ∉ drop (S i) headers ->
  rowOf headers values !! h = Some (default EmptyString (values !! i)).
Proof.
  intros Hi Hne Hlast. unfold rowOf.
  rewrite (forEach_assign_last values headers 0 ∅ i h Hi Hne Hlast).
  rewrite or_else_default. reflexivity.
Qed.

Lemma rowOf_surplus (headers values : list string) :
  rowOf headers values = rowOf headers (take (length headers) values).
Proof.
  unfold rowOf. apply forEach_ext. intros h i row Hi.
  rewrite lookup_take_lt by lia. reflexivity.
Qed.

(** Every occurrence of a header is followed by a last one. *)
Lemma last_occurrence (hs : list string) (i : nat) (h : string) :
  hs !! i = Some h ->
  exists j, i <= j /\ hs !! j = Some h /\ h ∉ drop (S j) hs.
Proof.
  revert i. induction hs as [|h' hs IH]; intros i Hi; [discriminate|].
  destruct i as [|i]; simpl in Hi.
  - injection Hi as ->.
    destruct (decide (h ∈ hs)) as [Hin|Hnot].
    + apply list_elem_of_lookup in Hin as [i' Hi'].
      destruct (IH i' Hi') as [j [_ [Hj Hlast]]].
      exists (S j). split; [lia|]. split; assumption.
    + exists 0. split; [lia|]. split; [reflexivity|].
      simpl. rewrite drop_0. exact Hnot.
  - destruct (IH i Hi) as [j [Hle [Hj Hlast]]].
    exists (S j). split; [lia|]. split; assumption.
Qed.

Lemma rowOf_missing (headers values : list string) (i : nat) (h : string) :
  headers !! i = Some h -> h <> "__proto__" -> length values <= i ->
  rowOf headers values !! h = Some EmptyString.
Proof.
  intros Hi Hne Hlen.
  destruct (last_occurrence headers i h Hi) as [j [Hle [Hj Hlast]]].
  rewrite (rowOf_lookup_last headers values j h Hj Hne Hlast).
  rewrite lookup_ge_None_2 by lia. reflexivity.
Qed.

(** ** Filtering *)

Lemma cellValue_cell (row : TableRow) (column : string) :
  or_else (toLowerCase <$> row !! column) EmptyString
  = toLowerCase (Spec.cell row column).
Proof.
  rewrite or_else_default. unfold Spec.cell.
  destruct (row !! column); reflexivity.
Qed.

Lemma rowPasses_matches (filters : ColumnFilter) (row : TableRow) :
  rowPasses filters row = true <-> Spec.matches filters row.
Proof.
  unfold rowPasses, every, Object_entries, Spec.matches.
  rewrite forallb_forall. split.
  - intros H column filterValue Hf Hne.
    specialize (H (column, filterValue)). simpl in H.
    apply truthy_true in Hne. rewrite Hne in H. simpl in H.
    rewrite cellValue_cell, trim_toLowerCase in H.
    apply includes_spec, H, list_elem_of_In, elem_of_map_to_list, Hf.
  - intros H [column filterValue] Hin.
    apply list_elem_of_In, elem_of_map_to_list in Hin.
    destruct (truthy (trim filterValue)) eqn:Ht; simpl; [|reflexivity].
    rewrite cellValue_cell, trim_toLowerCase.
    apply includes_spec, (H column filterValue Hin), truthy_true, Ht.
Qed.

Lemma applyFilters_unfold (filters : ColumnFilter) (rows : list TableRow) :
  Debounced.applyFilters filters rows
  = if every (Object_values filters) (fun val => negb (truthy (trim val)))
    then rows else List.filter (rowPasses filters) rows.
Proof. reflexivity. Qed.

Lemma every_empty_iff (filters : ColumnFilter) :
  every (Object_values filters) (fun val => negb (truthy (trim val))) = true
  <-> map_Forall (fun _ val => trim val = EmptyString) filters.
Proof.
  unfold every, Object_values. rewrite forallb_forall. split.
  - intros H column val Hf. apply truthy_false, negb_true_iff, H.
    apply in_map_iff. exists (column, val). split; [reflexivity|].
    apply list_elem_of_In, elem_of_map_to_list, Hf.
  - intros H val Hin. apply in_map_iff in Hin as [[column val'] [<- Hin]].
    apply list_elem_of_In, elem_of_map_to_list in Hin.
    apply negb_true_iff, truthy_false, (H column val' Hin).
Qed.

Lemma all_empty_passes (filters : ColumnFilter) (row : TableRow) :
  map_Forall (fun _ val => trim val = EmptyString) filters ->
  rowPasses filters row = true.
Proof.
  intros H. apply rowPasses_matches. intros column val Hf Hne.
  destruct Hne. exact (H column val Hf).
Qed.

Lemma filter_all {A} (p : A -> bool) (l : list A) :
  (forall x, p x = true) -> List.filter p l = l.
Proof.
  intros H. induction l as [|x l IH]; simpl; [reflexivity|].
  rewrite H, IH. reflexivity.
Qed.

Lemma filter_twice {A} (p : A -> bool) (l : list A) :
  List.filter p (List.filter p l) = List.filter p l.
Proof.
  induction l as [|x l IH]; simpl; [reflexivity|].
  destruct (p x) eqn:Hp; simpl; rewrite ?Hp, IH; reflexivity.
Qed.

Lemma filter_sublist {A} (p : A -> bool) (l : list A) :
  sublist (List.filter p l) l.
Proof.
  induction l as [|x l IH]; simpl; [constructor|].
  destruct (p x); constructor; exact IH.
Qed.

Lemma applyFilters_all_empty (filters : ColumnFilter) (rows : list TableRow) :
  map_Forall (fun _ val => trim val = EmptyString) filters ->
  Debounced.applyFilters filters rows = rows.
Proof.
  intros H. rewrite applyFilters_unfold.
  apply every_empty_iff in H. rewrite H. reflexivity.
Qed.

Lemma applyFilters_filter (filters : ColumnFilter) (rows : list TableRow) :
  Debounced.applyFilters filters rows = List.filter (rowPasses filters) rows.
Proof.
  rewrite applyFilters_unfold.
  destruct (every _ _) eqn:He; [|reflexivity].
  symmetry. apply filter_all. intros row.
  apply all_empty_passes, every_empty_iff, He.
Qed.

(** ** Limiting the rows shown *)

Lemma slice_prefix {A} (a : list A) (n : nat) :
  slice a 0 (Z.of_nat n) = take (min n (length a)) a.
Proof.
  unfold slice. simpl.
  destruct (Z.ltb_spec (Z.of_nat n) 0); [lia|].
  replace (Z.min 0 (Z.of_nat (length a))) with 0%Z by lia.
  rewrite Z.sub_0_r. change (Z.to_nat 0) with 0. rewrite drop_0.
  f_equal. lia.
Qed.

Lemma displayRowsCount_min (n : nat) (rows : list TableRow) :
  Debounced.displayRowsCount (Z.of_nat n) rows
  = Z.of_nat (min n (length rows)).
Proof.
  unfold Debounced.displayRowsCount. rewrite Z.geb_leb.
  destruct (Z.leb_spec (Z.of_nat (length rows)) (Z.of_nat n)); lia.
Qed.

Lemma renderTableRows_limit (rows : list TableRow) (n : nat) :
  default [] (Debounced.renderTableRows rows
                (Debounced.displayRowsCount (Z.of_nat n) rows))
  = Spec.limit rows n.
Proof.
  unfold Debounced.renderTableRows, Spec.limit.
  destruct rows as [|row rows].
  - simpl. rewrite take_nil. reflexivity.
  - cbn [length Nat.eqb default].
    rewrite displayRowsCount_min, slice_prefix. unfold id. f_equal.
    cbn [length]. lia.
Qed.

(** ** Reading through [Object.prototype] *)

Lemma Array_filter_throwing_Normal {A} (a : list A)
    (p : A -> completion bool) (q : A -> bool) :
  Forall (fun x => p x = Normal (q x)) a ->
  JSThrowing.Array_filter_throwing a p = Normal (List.filter q a).
Proof.
  induction 1 as [|x a Hx Ha IH]; simpl; [reflexivity|].
  rewrite Hx. simpl. rewrite IH. simpl. destruct (q x); reflexivity.
Qed.

Lemma every_throwing_Normal {A} (a : list A)
    (p : A -> completion bool) (q : A -> bool) :
  Forall (fun x => p x = Normal (q x)) a ->
  JSThrowing.every_throwing a p = Normal (forallb q a).
Proof.
  induction 1 as [|x a Hx Ha IH]; simpl; [reflexivity|].
  rewrite Hx. simpl. destruct (q x); [exact IH|reflexivity].
Qed.

Lemma cellValue_own (row : TableRow) (column : string) :
  Prototype.get row column <> Prototype.Inherited ->
  WithPrototype.cellValue row column
  = Normal (or_else (toLowerCase <$> row !! column) EmptyString).
Proof.
  unfold WithPrototype.cellValue, Prototype.get.
  destruct (row !! column) as [s|]; [reflexivity|].
  destruct (Prototype.inherits column); [congruence|reflexivity].
Qed.

(** Where no read finds an inherited member, reading through
    [Object.prototype] is reading own properties. *)
Lemma applyFilters_reads_own (F : ColumnFilter) (rows : list TableRow) :
  reads_own F rows ->
  WithPrototype.applyFilters F rows = Normal (Debounced.applyFilters F rows).
Proof.
  intros Hown. rewrite applyFilters_unfold. unfold WithPrototype.applyFilters.
  destruct (every _ _); [reflexivity|].
  apply Array_filter_throwing_Normal.
  apply (Forall_impl _ _ _ Hown). intros row Hrow.
  unfold rowPasses, every. apply every_throwing_Normal.
  apply Forall_forall. intros [column value] Hin.
  apply elem_of_map_to_list in Hin.
  destruct (truthy (trim value)) eqn:Ht; simpl; [|reflexivity].
  destruct (Hrow column value Hin) as [Hblank|Hget].
  - rewrite Hblank in Ht. discriminate.
  - rewrite (cellValue_own row column Hget). reflexivity.
Qed.

(** A filter map keyed by own keys of every row reads own properties
    only. *)
Lemma own_columns_reads_own (F : ColumnFilter) (rows : list TableRow) :
  Forall (fun row : TableRow => dom F ⊆ dom row) rows -> reads_own F rows.
Proof.
  intros H. apply (Forall_impl _ _ _ H). intros row Hdom column value Hc.
  right. unfold Prototype.get.
  assert (Hin : column ∈ dom row) by (apply Hdom, elem_of_dom; eauto).
  apply elem_of_dom in Hin as [s ->]. discriminate.
Qed.

(* ===================================================================== *)
(** * The properties of the specification *)
(* ===================================================================== *)

(** C1.  For every input line, [parseCSVLine] is the character scan of the
    specification: inside a quoted field a double quote followed by a
    double quote appends one double quote and skips the next character;
    any other double quote toggles the quoted state and emits nothing; a
    comma outside quotes ends the current field, trimmed; every other
    character is appended as it is; the last buffer is pushed, trimmed,
    when the scan ends.  In particular the line [quoted_comma_line]
    (a quoted x,y then z) splits into [x,y] and [z], and the line
    [escaped_quote_line] (a quoted field with hi between escaped quotes)
    is the one field [he_said_hi]. *)
Theorem parseCSVLine_is_the_scan :
  (forall line : string,
     Debounced.parseCSVLine line = Spec.splitFields line false EmptyString)
  /\ Debounced.parseCSVLine quoted_comma_line = ["x,y"; "z"]
  /\ Debounced.parseCSVLine escaped_quote_line = [he_said_hi].
Proof.
  split; [|split].
  - intros line. unfold Debounced.parseCSVLine.
    rewrite parseCSVLine_loop_scan. reflexivity.
  - vm_compute. reflexivity.
  - vm_compute. reflexivity.
Qed.

(** C2.  [applyFilters] misses one case of the property: a filter column
    that a row lacks but inherits from [Object.prototype] is not read as
    the empty string; the call of [toLowerCase] on the inherited member
    throws.  With the filter map [toString: x] and the one row [a: x],
    which has no column [toString], the call throws a [TypeError], where
    the property asks for the empty result and no failure.  Whenever no
    read of a filtered column finds an inherited member, [applyFilters]
    returns the ordered subsequence of the rows that satisfy the filter
    map: for every column whose trimmed filter value is not empty, the
    lower-cased cell of the row at that column (the empty string where
    the row has no such column) contains the lower-cased trimmed filter
    value.  In particular the filter value [FO] matches the cell
    [foobar]. *)
Theorem applyFilters_throws_on_inherited_column :
  WithPrototype.applyFilters {[ "toString" := "x" ]} [ {[ "a" := "x" ]} ]
  = TypeError "row[column]?.toLowerCase is not a function"
  /\ ({[ "a" := "x" ]} : TableRow) !! "toString" = None
  /\ (forall (filters : ColumnFilter) (rows : list TableRow),
        reads_own filters rows ->
        exists keep : TableRow -> bool,
          (forall row, keep row = true <-> Spec.matches filters row) /\
          WithPrototype.applyFilters filters rows
          = Normal (List.filter keep rows))
  /\ WithPrototype.applyFilters {[ "name" := "FO" ]}
       [ {[ "name" := "foobar" ]} ]
     = Normal [ {[ "name" := "foobar" ]} ].
Proof.
  split; [vm_compute; reflexivity|]. split; [reflexivity|]. split.
  - intros filters rows Hown. exists (rowPasses filters). split.
    + intros row. apply rowPasses_matches.
    + rewrite (applyFilters_reads_own filters rows Hown), applyFilters_filter.
      reflexivity.
  - vm_compute. reflexivity.
Qed.

Lemma applyFilters_throws_on_inherited_column_witness :
  reads_own {[ "a" := "x" ]} [ {[ "a" := "x1" ]}; {[ "b" := "x" ]} ]
  /\ exists keep : TableRow -> bool,
       (forall row, keep row = true <-> Spec.matches {[ "a" := "x" ]} row) /\
       WithPrototype.applyFilters {[ "a" := "x" ]}
         [ {[ "a" := "x1" ]}; {[ "b" := "x" ]} ]
       = Normal (List.filter keep [ {[ "a" := "x1" ]}; {[ "b" := "x" ]} ]).
Proof.
  assert (H : reads_own {[ "a" := "x" ]}
                [ {[ "a" := "x1" ]}; {[ "b" := "x" ]} ]).
  { constructor; [|constructor; [|constructor]];
      apply map_Forall_singleton; right; discriminate. }
  split; [exact H|].
  exact (proj1 (proj2 (proj2 applyFilters_throws_on_inherited_column)) _ _ H).
Defined.


(** C4.  [parseCSV] misses one case of the property: the header
    [__proto__].  The assignment of a cell to that key runs the setter
    inherited from [Object.prototype], which stores nothing, so on the
    text [__proto__,b] / [1,2] the one row has the single key [b] where
    the property asks for both header names.  For every text, every row
    produced has exactly the header names other than [__proto__] as its
    keys; such a header at a position the line has no value for maps to
    the empty string; the values beyond the number of headers are
    dropped; such a header maps to the value at its position, the last
    one when the name is repeated.  In particular the text [a,b,c] /
    [1,2] gives the one row with [a] at [1], [b] at [2] and [c] at the
    empty string. *)
Theorem rows_follow_headers_but_proto :
  (headerNames proto_header_text = ["__proto__"; "b"]
   /\ Debounced.parseCSV proto_header_text = Normal [ {[ "b" := "2" ]} ])
  /\ (forall (csvText line : string) (row : TableRow),
        produces csvText line row ->
        let headers := headerNames csvText in
        let values := Debounced.parseCSVLine (trim line) in
        dom row = list_to_set (filter (fun h => h <> "__proto__") headers)
        /\ (forall i h, headers !! i = Some h -> h <> "__proto__" ->
              length values <= i -> row !! h = Some EmptyString)
        /\ row = rowOf headers (take (length headers) values)
        /\ (forall i h, headers !! i = Some h -> h <> "__proto__" ->
              h ∉ drop (S i) headers ->
              row !! h = Some (default EmptyString (values !! i))))
  /\ Debounced.parseCSV short_row_text
     = Normal [ {[ "a" := "1"; "b" := "2"; "c" := EmptyString ]} ].
Proof.
  split; [split; vm_compute; reflexivity|]. split.
  - intros csvText line row Hrow headers values.
    apply produces_rowOf in Hrow. fold headers values in Hrow. subst row.
    split; [|split; [|split]].
    + apply rowOf_dom.
    + intros i h. apply rowOf_missing.
    + apply rowOf_surplus.
    + intros i h. apply rowOf_lookup_last.
  - vm_compute. reflexivity.
Qed.

Lemma rows_follow_headers_but_proto_witness :
  produces proto_header_text "1,2" {[ "b" := "2" ]}
  /\ dom ({[ "b" := "2" ]} : TableRow)
     = list_to_set
         (filter (fun h => h <> "__proto__") (headerNames proto_header_text)).
Proof.
  assert (H : produces proto_header_text "1,2" {[ "b" := "2" ]}).
  { exists [ {[ "b" := "2" ]} ], 0.
    split; [vm_compute; reflexivity|]. split; reflexivity. }
  split; [exact H|].
  exact (proj1 (proj1 (proj2 rows_follow_headers_but_proto)
                  proto_header_text "1,2" _ H)).
Defined.

(** C5.  For every text, [parseCSV] produces no row for a line after the
    header line that is empty once trimmed, and one row for each of the
    other lines, in the order of the file.  In particular the text
    [a,b] / [1,2] / (blank) / [3,4] gives exactly two rows. *)
Theorem blank_lines_are_skipped :
  (forall csvText : string,
     Debounced.parseCSV csvText
     = Normal
         (map (fun line => rowOf (headerNames csvText)
                             (Debounced.parseCSVLine (trim line)))
            (filter (fun line => trim line <> EmptyString)
               (tail (split LF csvText)))))
  /\ Debounced.parseCSV blank_line_text
     = Normal [ {[ "a" := "1"; "b" := "2" ]}; {[ "a" := "3"; "b" := "4" ]} ].
Proof.
  split.
  - intros csvText. apply parseCSV_rows.
  - vm_compute. reflexivity.
Qed.

(** C6.  Empty-filters identity: for every row sequence and every filter
    map whose values are all empty once trimmed, [applyFilters] returns the
    rows unchanged, in the same order. *)
Theorem empty_filters_identity (filters : ColumnFilter) (rows : list TableRow) :
  map_Forall (fun _ filterValue => trim filterValue = EmptyString) filters ->
  Debounced.applyFilters filters rows = rows.
Proof. apply applyFilters_all_empty. Qed.

Lemma empty_filters_identity_witness :
  map_Forall (fun _ filterValue => trim filterValue = EmptyString)
    ({[ "a" := EmptyString; "b" := "  " ]} : ColumnFilter)
  /\ Debounced.applyFilters {[ "a" := EmptyString; "b" := "  " ]}
       [ {[ "a" := "x"; "b" := "y" ]}; {[ "a" := "z" ]} ]
     = [ {[ "a" := "x"; "b" := "y" ]}; {[ "a" := "z" ]} ].
Proof.
  assert (H : map_Forall (fun _ filterValue => trim filterValue = EmptyString)
                ({[ "a" := EmptyString; "b" := "  " ]} : ColumnFilter)).
  { apply map_Forall_insert_2; [reflexivity|].
    apply map_Forall_singleton. reflexivity. }
  split; [exact H|].
  exact (empty_filters_identity _ _ H).
Defined.

(** C7.  Filtering is idempotent: filtering the filtered rows again with
    the same filter map changes nothing. *)
Theorem applyFilters_idempotent (filters : ColumnFilter) (rows : list TableRow) :
  Debounced.applyFilters filters (Debounced.applyFilters filters rows)
  = Debounced.applyFilters filters rows.
Proof. rewrite !applyFilters_filter. apply filter_twice. Qed.

(** C8.  For every row sequence and every count [n], the rows rendered are
    exactly the first [min n (length rows)] rows, in both viewers that
    limit them (the second with the fixed count 100); choosing the count
    changes neither the filtered rows held nor the rows the filters
    match. *)
Theorem limit_shows_a_prefix :
  (forall (rows : list TableRow) (n : nat),
     default []
       (Debounced.renderTableRows rows
          (Debounced.displayRowsCount (Z.of_nat n) rows))
     = take (min n (length rows)) rows)
  /\ (forall rows : list TableRow,
        MultiColumn.renderedRows rows = take (min 100 (length rows)) rows)
  /\ (forall (st : Debounced.State) (value : Z),
        Debounced.filteredData (Debounced.handleRowsToDisplayChange value st)
        = Debounced.filteredData st
        /\ Debounced.filteredData
             (Debounced.filterEffect
                (Debounced.handleRowsToDisplayChange value st))
           = Debounced.filteredData (Debounced.filterEffect st)).
Proof.
  split; [|split].
  - intros rows n. apply renderTableRows_limit.
  - intros rows. unfold MultiColumn.renderedRows.
    apply (slice_prefix rows 100).
  - intros st value. split; [reflexivity|].
    unfold Debounced.filterEffect, Debounced.handleRowsToDisplayChange.
    simpl. destruct (Nat.eqb _ 0); reflexivity.
Qed.

(** C9.  Duplicate headers, last write wins, but for the header
    [__proto__], by the defect of C4: on the text [__proto__,__proto__] /
    [1,2] the one row is the empty object, with no own key [__proto__],
    where the property asks for that name at the value [2].  For every
    other name that the header line bears at two or more positions, every
    produced row maps the name to the field value at the last position
    bearing it. *)
Theorem duplicate_header_last_wins_but_proto :
  (headerNames proto_twice_text = ["__proto__"; "__proto__"]
   /\ Debounced.parseCSV proto_twice_text = Normal [ ∅ ])
  /\ (forall (csvText line : string) (row : TableRow) (i j : nat)
         (h : string),
        produces csvText line row ->
        headerNames csvText !! i = Some h ->
        headerNames csvText !! j = Some h ->
        i < j ->
        h ∉ drop (S j) (headerNames csvText) ->
        h <> "__proto__" ->
        row !! h
        = Some (default EmptyString
                  (Debounced.parseCSVLine (trim line) !! j))).
Proof.
  split; [split; vm_compute; reflexivity|].
  intros csvText line row i j h Hrow _ Hj _ Hlast Hne.
  apply produces_rowOf in Hrow. subst row.
  apply rowOf_lookup_last; assumption.
Qed.

Lemma duplicate_header_last_wins_but_proto_witness :
  produces duplicate_header_text "1,2,3" {[ "a" := "3"; "b" := "2" ]}
  /\ ({[ "a" := "3"; "b" := "2" ]} : TableRow) !! "a" = Some "3".
Proof.
  assert (H : produces duplicate_header_text "1,2,3"
                {[ "a" := "3"; "b" := "2" ]}).
  { exists [ {[ "a" := "3"; "b" := "2" ]} ], 0.
    split; [vm_compute; reflexivity|]. split; reflexivity. }
  split; [exact H|].
  refine (proj2 duplicate_header_last_wins_but_proto
            duplicate_header_text "1,2,3" _ 0 2 "a" H _ _ _ _ _).
  - reflexivity.
  - reflexivity.
  - lia.
  - apply not_elem_of_nil.
  - discriminate.
Defined.

(** C10.  The parsing routines repeated in the three viewers are
    extensionally equal: for every input, [parseCSVLine] and [parseCSV] of
    the debounced, the multi-column and the fifth-column viewer return the
    same result. *)
Theorem parsers_agree :
  (forall line : string,
     MultiColumn.parseCSVLine line = Debounced.parseCSVLine line
     /\ FifthColumn.parseCSVLine line = Debounced.parseCSVLine line)
  /\ (forall csvText : string,
        MultiColumn.parseCSV csvText = Debounced.parseCSV csvText
        /\ FifthColumn.parseCSV csvText = Debounced.parseCSV csvText).
Proof.
  split.
  - intros line. split.
    + apply MultiColumn_loop.
    + apply FifthColumn_loop.
  - intros csvText. split.
    + apply MultiColumn_parseCSV.
    + apply FifthColumn_parseCSV.
Qed.


(* ===================================================================== *)
(** * Further properties of the code *)
(* ===================================================================== *)

(** ** Strings *)

Lemma string_app_cons (c : ascii) (s t : string) :
  String c s +:+ t = String c (s +:+ t).
Proof. reflexivity. Qed.

Lemma string_app_nil_r (s : string) : s +:+ EmptyString = s.
Proof.
  induction s as [|c s IH]; [reflexivity|].
  rewrite string_app_cons, IH. reflexivity.
Qed.

Lemma string_app_assoc (s t u : string) : (s +:+ t) +:+ u = s +:+ t +:+ u.
Proof.
  induction s as [|c s IH]; [reflexivity|].
  rewrite !string_app_cons, IH. reflexivity.
Qed.

(** Induction on a string with the hypothesis for the tail and for the
    tail of the tail. *)
Lemma string_pair_ind (P : string -> Prop) :
  P EmptyString ->
  (forall c s, P s -> (forall c' s', s = String c' s' -> P s') ->
     P (String c s)) ->
  forall s, P s.
Proof.
  intros Hnil Hcons s.
  assert (H : P s /\ forall c' s', s = String c' s' -> P s').
  { induction s as [|c s [IH1 IH2]].
    - split; [exact Hnil|]. intros c' s' Heq. discriminate.
    - split; [apply Hcons; assumption|].
      intros c' s' Heq. injection Heq as _ <-. exact IH1. }
  exact (proj1 H).
Qed.

Lemma trimEnd_cons_nonwhite (c : ascii) (t : string) :
  is_white c = false -> trimEnd (String c t) = String c (trimEnd t).
Proof. intros Hc. simpl. rewrite Hc. destruct (trimEnd t); reflexivity. Qed.

Lemma trimEnd_idem (s : string) : trimEnd (trimEnd s) = trimEnd s.
Proof.
  induction s as [|c s IH]; [reflexivity|]. simpl.
  destruct (trimEnd s) as [|a u] eqn:Ht.
  - destruct (is_white c) eqn:Hc; [reflexivity|]. simpl. rewrite Hc. reflexivity.
  - change (trimEnd (String c (String a u))) with
      (match trimEnd (String a u) with
       | EmptyString => if is_white c then EmptyString else str c
       | String _ _ as t => String c t
       end).
    rewrite IH. reflexivity.
Qed.

Lemma trimStart_head (s : string) :
  trimStart s = EmptyString \/
  exists c t, trimStart s = String c t /\ is_white c = false.
Proof.
  induction s as [|c s IH]; simpl; [left; reflexivity|].
  destruct (is_white c) eqn:Hc; [exact IH|]. right. eauto.
Qed.

Lemma trim_idem (s : string) : trim (trim s) = trim s.
Proof.
  unfold trim. destruct (trimStart_head s) as [->|[c [t [-> Hc]]]].
  - reflexivity.
  - rewrite (trimEnd_cons_nonwhite c t Hc).
    change (trimStart (String c (trimEnd t)))
      with (if is_white c then trimStart (trimEnd t) else String c (trimEnd t)).
    rewrite Hc, <- (trimEnd_cons_nonwhite c t Hc). apply trimEnd_idem.
Qed.

Lemma trimEnd_app_white (s : string) (c : ascii) :
  is_white c = true -> trimEnd (s +:+ str c) = trimEnd s.
Proof.
  intros Hc. induction s as [|a s IH].
  - simpl. rewrite Hc. reflexivity.
  - rewrite string_app_cons. simpl. rewrite IH. reflexivity.
Qed.

Lemma trim_app_white (s : string) (c : ascii) :
  is_white c = true -> trim (s +:+ str c) = trim s.
Proof.
  intros Hc. unfold trim. induction s as [|a s IH].
  - simpl. rewrite Hc. reflexivity.
  - rewrite string_app_cons. simpl.
    destruct (is_white a); [exact IH|].
    apply (trimEnd_app_white (String a s) c Hc).
Qed.

Lemma toLowerCase_empty (s : string) :
  toLowerCase s = EmptyString <-> s = EmptyString.
Proof. destruct s; simpl; split; congruence. Qed.

(** ** The fields of one line *)

Lemma splitFields_Forall (P : string -> Prop) :
  (forall buffer, P (trim buffer)) ->
  forall chars insideQuoted buffer,
    Forall P (Spec.splitFields chars insideQuoted buffer).
Proof.
  intros HP chars. induction chars as [|c s IH IH'] using string_pair_ind;
    intros q buf; simpl.
  - constructor; [apply HP|constructor].
  - destruct (Ascii.eqb c dquote).
    + destruct q; [|apply IH].
      destruct s as [|c' s']; [apply IH|].
      destruct (Ascii.eqb c' dquote); [|apply IH].
      apply (IH' c' s' eq_refl).
    + destruct (Ascii.eqb c comma && negb q); [|apply IH].
      constructor; [apply HP|apply IH].
Qed.

Lemma splitFields_length (chars : string) (insideQuoted : bool)
    (buffer : string) :
  1 <= length (Spec.splitFields chars insideQuoted buffer)
    <= 1 + count_char comma chars.
Proof.
  revert insideQuoted buffer.
  induction chars as [|c s IH IH'] using string_pair_ind; intros q buf.
  - simpl. lia.
  - cbn [Spec.splitFields count_char].
    destruct (Ascii.eqb c dquote) eqn:Hq.
    + apply Ascii.eqb_eq in Hq. subst c.
      change (Ascii.eqb dquote comma) with false. cbn [Nat.add].
      destruct q; [|apply IH].
      destruct s as [|c' s']; [apply IH|].
      destruct (Ascii.eqb c' dquote) eqn:Hq'; [|apply IH].
      apply Ascii.eqb_eq in Hq'. subst c'.
      specialize (IH' dquote s' eq_refl true (buf +:+ str dquote)).
      cbn [count_char]. change (Ascii.eqb dquote comma) with false.
      cbn [Nat.add]. exact IH'.
    + destruct (Ascii.eqb c comma) eqn:Hk; cbn [andb].
      * destruct q; cbn [negb length].
        -- specialize (IH true (buf +:+ str c)). lia.
        -- specialize (IH false EmptyString). lia.
      * cbn [Nat.add]. apply IH.
Qed.

Lemma splitFields_unquoted (chars buffer : string) :
  count_char dquote chars = 0 ->
  Spec.splitFields chars false buffer
  = match split comma chars with
    | w :: ws => trim (buffer +:+ w) :: map trim ws
    | [] => []
    end.
Proof.
  revert buffer. induction chars as [|c s IH]; intros buf Hq.
  - simpl. rewrite string_app_nil_r. reflexivity.
  - cbn [count_char] in Hq. cbn [Spec.splitFields split].
    destruct (Ascii.eqb c dquote); [discriminate|].
    cbn [Nat.add] in Hq.
    destruct (Ascii.eqb c comma); cbn [andb negb].
    + rewrite (IH EmptyString Hq), string_app_nil_r.
      destruct (split_cons comma s) as [w [ws ->]]. reflexivity.
    + rewrite (IH (buf +:+ str c) Hq).
      destruct (split_cons comma s) as [w [ws ->]].
      rewrite string_app_assoc. reflexivity.
Qed.

Lemma parseCSVLine_splitFields (line : string) :
  Debounced.parseCSVLine line = Spec.splitFields line false EmptyString.
Proof.
  unfold Debounced.parseCSVLine. rewrite parseCSVLine_loop_scan. reflexivity.
Qed.

(** X1.  [parseCSVLine] never returns the empty array, and returns at most
    one field more than the line has commas. *)
Theorem parseCSVLine_field_count (line : string) :
  1 <= length (Debounced.parseCSVLine line) <= 1 + count_char comma line.
Proof. rewrite parseCSVLine_splitFields. apply splitFields_length. Qed.

(** X2.  On a line with no double quote [parseCSVLine] is the plain
    splitting that the header line gets: split at the commas, each field
    trimmed. *)
Theorem parseCSVLine_unquoted (line : string) :
  count_char dquote line = 0 ->
  Debounced.parseCSVLine line = map trim (split comma line).
Proof.
  intros Hq. rewrite parseCSVLine_splitFields, (splitFields_unquoted _ _ Hq).
  destruct (split_cons comma line) as [w [ws ->]]. reflexivity.
Qed.

Lemma parseCSVLine_unquoted_witness :
  count_char dquote " a, b ,c" = 0
  /\ Debounced.parseCSVLine " a, b ,c" = map trim (split comma " a, b ,c").
Proof.
  split; [reflexivity|]. apply parseCSVLine_unquoted. reflexivity.
Defined.

(** X3.  Every field [parseCSVLine] returns is trimmed, also a field that
    was quoted: white space at the ends of a quoted field is lost. *)
Theorem parseCSVLine_fields_trimmed :
  (forall line : string, Forall trimmed (Debounced.parseCSVLine line))
  /\ Debounced.parseCSVLine (str dquote +:+ " x " +:+ str dquote) = ["x"].
Proof.
  split.
  - intros line. rewrite parseCSVLine_splitFields. apply splitFields_Forall.
    intros buffer. apply trim_idem.
  - vm_compute. reflexivity.
Qed.

(** ** The rows of one text *)

Lemma set_Forall (P : string -> string -> Prop) (key v : string)
    (obj : TableRow) :
  P key v -> map_Forall P obj -> map_Forall P (Prototype.set key v obj).
Proof.
  intros Hv Hobj. unfold Prototype.set.
  destruct (obj !! key); [apply map_Forall_insert_2; assumption|].
  destruct (String.eqb key "__proto__"); [exact Hobj|].
  apply map_Forall_insert_2; assumption.
Qed.

Lemma forEach_assign_trimmed (values hs : list string) (k : nat)
    (row : TableRow) :
  Forall trimmed hs -> Forall trimmed values ->
  map_Forall (fun key value => trimmed key /\ trimmed value) row ->
  map_Forall (fun key value => trimmed key /\ trimmed value)
    (forEach hs k
       (fun header index row =>
          Prototype.set header (or_else (values !! index) EmptyString) row)
       row).
Proof.
  intros Hh Hv. revert k row.
  induction Hh as [|h hs Hh Hhs IH]; intros k row Hrow; simpl; [exact Hrow|].
  apply IH. apply set_Forall; [|exact Hrow].
  split; [exact Hh|]. rewrite or_else_default.
  destruct (values !! k) as [v|] eqn:Hk; simpl; [|reflexivity].
  rewrite Forall_forall in Hv. apply Hv, list_elem_of_lookup. eauto.
Qed.

Lemma headerNames_trimmed (csvText : string) :
  Forall trimmed (headerNames csvText).
Proof.
  unfold headerNames. apply Forall_forall. intros h Hh.
  apply list_elem_of_fmap in Hh as [w [-> _]]. apply trim_idem.
Qed.

(** X4.  Every key and every cell of every row [parseCSV] returns is
    trimmed: no white space at either end. *)
Theorem parseCSV_cells_trimmed (csvText : string) (rows : list TableRow)
    (row : TableRow) (key value : string) :
  Debounced.parseCSV csvText = Normal rows ->
  row ∈ rows ->
  row !! key = Some value ->
  trimmed key /\ trimmed value.
Proof.
  intros Hrows Hrow Hkey.
  destruct (produces_covers csvText rows row Hrows Hrow) as [line Hline].
  apply produces_rowOf in Hline. subst row.
  refine (forEach_assign_trimmed _ _ 0 ∅ _ _ _ key value Hkey).
  - apply headerNames_trimmed.
  - rewrite parseCSVLine_splitFields. apply splitFields_Forall.
    intros buffer. apply trim_idem.
  - apply map_Forall_empty.
Qed.

Lemma parseCSV_cells_trimmed_witness :
  trimmed "b" /\ trimmed "2".
Proof.
  refine (parseCSV_cells_trimmed (" a , b " +:+ str LF +:+ " 1 , 2 ")
            [ {[ "a" := "1"; "b" := "2" ]} ] {[ "a" := "1"; "b" := "2" ]}
            "b" "2" _ _ _).
  - vm_compute. reflexivity.
  - apply list_elem_of_here.
  - reflexivity.
Defined.

(** X5.  All the rows of one text have the same set of keys. *)
Theorem rows_share_keys (csvText : string) (rows : list TableRow)
    (row1 row2 : TableRow) :
  Debounced.parseCSV csvText = Normal rows ->
  row1 ∈ rows -> row2 ∈ rows ->
  dom row1 = dom row2.
Proof.
  intros Hrows H1 H2.
  destruct (produces_covers csvText rows row1 Hrows H1) as [line1 Hl1].
  destruct (produces_covers csvText rows row2 Hrows H2) as [line2 Hl2].
  apply produces_rowOf in Hl1, Hl2. subst row1 row2.
  rewrite !rowOf_dom. reflexivity.
Qed.

Lemma rows_share_keys_witness :
  dom ({[ "a" := "1"; "b" := EmptyString ]} : TableRow)
  = dom ({[ "a" := "2"; "b" := "3" ]} : TableRow).
Proof.
  refine (rows_share_keys ("a,b" +:+ str LF +:+ "1" +:+ str LF +:+ "2,3,4")
            [ {[ "a" := "1"; "b" := EmptyString ]};
              {[ "a" := "2"; "b" := "3" ]} ] _ _ _ _ _).
  - vm_compute. reflexivity.
  - apply list_elem_of_here.
  - apply list_elem_of_further, list_elem_of_here.
Defined.

(** *** Line endings *)

Lemma cr_suffix_cons (c : ascii) (l l' : string) :
  cr_suffix l l' -> cr_suffix (String c l) (String c l').
Proof. intros [->| ->]; [left|right]; reflexivity. Qed.

Lemma cr_suffix_trim (l l' : string) : cr_suffix l l' -> trim l' = trim l.
Proof.
  intros [->| ->]; [reflexivity|]. apply trim_app_white. reflexivity.
Qed.

Lemma split_crlf (s : string) :
  Forall2 cr_suffix (split LF s) (split LF (crlf s)).
Proof.
  induction s as [|c s IH]; simpl.
  - constructor; [left; reflexivity|constructor].
  - destruct (Ascii.eqb c LF) eqn:Hc.
    + change (split LF (String CR (String LF (crlf s))))
        with (match EmptyString :: split LF (crlf s) with
              | [] => [str CR]
              | w :: ws => String CR w :: ws
              end).
      constructor; [right; reflexivity|exact IH].
    + simpl. rewrite Hc.
      destruct IH as [|w w' ws ws' Hw Hws]; constructor;
        auto using cr_suffix_cons. left. reflexivity.
Qed.

Lemma split_app_CR (sep : ascii) (l : string) :
  Ascii.eqb CR sep = false ->
  Forall2 cr_suffix (split sep l) (split sep (l +:+ str CR)).
Proof.
  intros Hsep. induction l as [|c l IH].
  - change (split sep (EmptyString +:+ str CR))
      with (if Ascii.eqb CR sep then [EmptyString; EmptyString]
            else [str CR]).
    rewrite Hsep. constructor; [right; reflexivity|constructor].
  - rewrite string_app_cons. simpl. destruct (Ascii.eqb c sep).
    + constructor; [left; reflexivity|exact IH].
    + destruct IH as [|w w' ws ws' Hw Hws]; constructor;
        auto using cr_suffix_cons. left. reflexivity.
Qed.

Lemma split_cr_suffix (sep : ascii) (l l' : string) :
  Ascii.eqb CR sep = false -> cr_suffix l l' ->
  Forall2 cr_suffix (split sep l) (split sep l').
Proof.
  intros Hsep [->| ->]; [|apply split_app_CR, Hsep].
  apply Forall_Forall2_diag, Forall_forall. intros w _. left. reflexivity.
Qed.

Lemma map_trim_cr_suffix (ls ls' : list string) :
  Forall2 cr_suffix ls ls' -> map trim ls' = map trim ls.
Proof.
  induction 1 as [|l l' ls ls' Hl Hls IH]; simpl; [reflexivity|].
  rewrite IH, (cr_suffix_trim l l' Hl). reflexivity.
Qed.

Lemma dataLines_cr_suffix {A} (g : string -> A) (ls ls' : list string) :
  Forall2 cr_suffix ls ls' ->
  map (fun line => g (trim line))
    (filter (fun line => trim line <> EmptyString) ls')
  = map (fun line => g (trim line))
      (filter (fun line => trim line <> EmptyString) ls).
Proof.
  induction 1 as [|l l' ls ls' Hl Hls IH]; [reflexivity|].
  rewrite !filter_cons. pose proof (cr_suffix_trim l l' Hl) as Ht.
  destruct (decide (trim l' <> EmptyString)) as [Hl'|Hl'];
    destruct (decide (trim l <> EmptyString)) as [Hl0|Hl0];
    try (rewrite Ht in Hl'; contradiction); simpl; rewrite IH, ?Ht;
    reflexivity.
Qed.

(** X6.  Line endings: a text whose lines end in carriage return and line
    feed parses to the same rows as the text with bare line feeds. *)
Theorem parseCSV_crlf (csvText : string) :
  Debounced.parseCSV (crlf csvText) = Debounced.parseCSV csvText.
Proof.
  rewrite !parseCSV_rows. f_equal.
  pose proof (split_crlf csvText) as Hlines.
  assert (Hh : headerNames (crlf csvText) = headerNames csvText).
  { unfold headerNames. destruct Hlines as [|l l' ls ls' Hl Hls]; simpl.
    - reflexivity.
    - apply map_trim_cr_suffix, split_cr_suffix; [reflexivity|exact Hl]. }
  rewrite Hh. unfold dataLines.
  apply (dataLines_cr_suffix
           (fun t => rowOf (headerNames csvText) (Debounced.parseCSVLine t))).
  destruct Hlines; simpl; [constructor|assumption].
Qed.

(** ** Filter maps *)

Lemma filter_ext_iff {A} (p q : A -> bool) (l : list A) :
  (forall x, p x = true <-> q x = true) -> List.filter p l = List.filter q l.
Proof.
  intros H. apply List.filter_ext. intros x. specialize (H x).
  destruct (p x), (q x); intuition congruence.
Qed.



Lemma filter_none {A} (p : A -> bool) (l : list A) :
  Forall (fun x => p x = false) l -> List.filter p l = [].
Proof.
  induction 1 as [|x l Hx Hl IH]; simpl; [reflexivity|].
  rewrite Hx. exact IH.
Qed.

Lemma Substring_empty (t : string) :
  Spec.Substring t EmptyString -> t = EmptyString.
Proof.
  intros [a [b Hab]]. destruct a; [|discriminate].
  destruct t; [reflexivity|discriminate].
Qed.






(** X9.  Only the trimmed, lower-cased filter values count: two filter
    maps whose values agree, column by column, once trimmed and
    lower-cased keep the same rows. *)
Theorem applyFilters_normalised (F G : ColumnFilter) (rows : list TableRow) :
  (forall column,
     (fun value => toLowerCase (trim value)) <$> F !! column
     = (fun value => toLowerCase (trim value)) <$> G !! column) ->
  Debounced.applyFilters F rows = Debounced.applyFilters G rows.
Proof.
  assert (Hone : forall F G : ColumnFilter,
            (forall column,
               (fun value => toLowerCase (trim value)) <$> F !! column
               = (fun value => toLowerCase (trim value)) <$> G !! column) ->
            forall row, Spec.matches F row -> Spec.matches G row).
  { clear. intros F G Heq row HF column w Hw Hne.
    specialize (Heq column). rewrite Hw in Heq.
    destruct (F !! column) as [v|] eqn:Hv; [|discriminate].
    simpl in Heq. injection Heq as Heq. rewrite <- Heq.
    apply (HF column v Hv). intros Hv0. apply Hne.
    rewrite Hv0 in Heq. symmetry in Heq.
    exact (proj1 (toLowerCase_empty (trim w)) Heq). }
  intros Heq. rewrite !applyFilters_filter. apply filter_ext_iff.
  intros row. rewrite !rowPasses_matches. split.
  - apply Hone. exact Heq.
  - apply Hone. intros column. symmetry. apply Heq.
Qed.

Lemma applyFilters_normalised_witness :
  Debounced.applyFilters {[ "a" := " FoO " ]} [ {[ "a" := "xfooy" ]} ]
  = Debounced.applyFilters {[ "a" := "foo" ]} [ {[ "a" := "xfooy" ]} ].
Proof.
  apply applyFilters_normalised. intros column.
  destruct (decide (column = "a")) as [->|Hne].
  - reflexivity.
  - rewrite !lookup_singleton_ne by congruence. reflexivity.
Defined.

(** X10.  Where no read of a filtered column finds an inherited member,
    a filter value that is not blank keeps no row whose cell at its column
    is empty or missing: the call returns no rows. *)
Theorem applyFilters_empty_cells (F : ColumnFilter) (column value : string)
    (rows : list TableRow) :
  F !! column = Some value ->
  trim value <> EmptyString ->
  reads_own F rows ->
  Forall (fun row => default EmptyString (row !! column) = EmptyString) rows ->
  WithPrototype.applyFilters F rows = Normal [].
Proof.
  intros Hc Hne Hown Hrows.
  rewrite (applyFilters_reads_own F rows Hown), applyFilters_filter.
  f_equal. apply filter_none.
  apply (Forall_impl _ _ _ Hrows). intros row Hcell.
  destruct (rowPasses F row) eqn:Hp; [|reflexivity].
  apply rowPasses_matches in Hp. specialize (Hp column value Hc Hne).
  unfold Spec.cell in Hp. rewrite Hcell in Hp.
  apply Substring_empty in Hp.
  destruct (Hne (proj1 (toLowerCase_empty (trim value)) Hp)).
Qed.

Lemma applyFilters_empty_cells_witness :
  WithPrototype.applyFilters {[ "c" := "x" ]}
    [ {[ "a" := "x" ]}; {[ "c" := EmptyString ]} ] = Normal [].
Proof.
  apply (applyFilters_empty_cells _ "c" "x").
  - reflexivity.
  - discriminate.
  - constructor; [|constructor; [|constructor]];
      apply map_Forall_singleton; right; discriminate.
  - constructor; [|constructor; [|constructor]]; reflexivity.
Defined.

Lemma applyFilters_insert_blank (F : ColumnFilter) (column value : string)
    (rows : list TableRow) :
  trim value = EmptyString ->
  Debounced.applyFilters (<[column := value]> F) rows
  = Debounced.applyFilters (delete column F) rows.
Proof.
  intros Hblank. rewrite !applyFilters_filter. apply filter_ext_iff.
  intros row. rewrite !rowPasses_matches. unfold Spec.matches. split.
  - intros H c v Hc Hne. apply lookup_delete_Some in Hc as [Hcne Hc].
    apply H; [|exact Hne]. rewrite lookup_insert_ne by exact Hcne. exact Hc.
  - intros H c v Hc Hne. apply lookup_insert_Some in Hc as [[-> ->]|[Hcne Hc]].
    + contradiction.
    + apply H; [|exact Hne]. apply lookup_delete_Some. auto.
Qed.

(** X11.  A blank filter value is the same as no entry for its column. *)
Theorem applyFilters_blank_entry (F : ColumnFilter) (column value : string)
    (rows : list TableRow) :
  trim value = EmptyString ->
  Debounced.applyFilters (<[column := value]> F) rows
  = Debounced.applyFilters (delete column F) rows.
Proof. apply applyFilters_insert_blank. Qed.

Lemma applyFilters_blank_entry_witness :
  Debounced.applyFilters (<["a" := "  "]> {[ "b" := "y" ]})
    [ {[ "a" := "x"; "b" := "y" ]} ]
  = Debounced.applyFilters (delete "a" {[ "b" := "y" ]})
      [ {[ "a" := "x"; "b" := "y" ]} ].
Proof. apply applyFilters_blank_entry. reflexivity. Defined.

(** ** The filter state of the debounced viewer *)

Lemma forEach_blank_Forall (hs : list string) (k : nat) (m : ColumnFilter)
    (P : string -> Prop) :
  P EmptyString ->
  map_Forall (fun _ value => P value) m ->
  map_Forall (fun _ value => P value)
    (forEach hs k (fun header _ m => <[header := EmptyString]> m) m).
Proof.
  intros HP. revert k m.
  induction hs as [|h hs IH]; intros k m Hm; simpl; [exact Hm|].
  apply IH, map_Forall_insert_2; assumption.
Qed.

Lemma forEach_blank_dom (hs : list string) (k : nat) (m : ColumnFilter) :
  dom (forEach hs k (fun header _ m => <[header := EmptyString]> m) m)
  = dom m ∪ list_to_set hs.
Proof.
  revert k m. induction hs as [|h hs IH]; intros k m; simpl.
  - rewrite (right_id_L ∅ (∪)). reflexivity.
  - rewrite IH, dom_insert_L.
    rewrite (comm_L (∪) {[h]} (dom m)), <- (assoc_L (∪)). reflexivity.
Qed.


Lemma list_to_set_Object_keys (row : TableRow) :
  list_to_set (Object_keys row) = dom row.
Proof.
  apply set_eq. intros key. unfold Object_keys.
  rewrite elem_of_list_to_set, list_elem_of_fmap, elem_of_dom. split.
  - intros [[k v] [-> Hin]]. apply elem_of_map_to_list in Hin. eauto.
  - intros [v Hv]. exists (key, v). split; [reflexivity|].
    apply elem_of_map_to_list, Hv.
Qed.

Lemma activeFiltersCount_zero (F : ColumnFilter) :
  Debounced.activeFiltersCount F = 0
  <-> map_Forall (fun _ value => trim value = EmptyString) F.
Proof.
  rewrite <- every_empty_iff.
  unfold Debounced.activeFiltersCount, Array_filter, every.
  induction (Object_values F) as [|v vs IH]; simpl; [tauto|].
  destruct (trim v) eqn:Hv; simpl; [exact IH|]. split; [lia|discriminate].
Qed.

(** X12.  The count of active filters is zero exactly when every filter
    value is blank, and then [applyFilters] returns every row. *)
Theorem no_active_filter_keeps_all (F : ColumnFilter) (rows : list TableRow) :
  (Debounced.activeFiltersCount F = 0
   <-> map_Forall (fun _ value => trim value = EmptyString) F)
  /\ (Debounced.activeFiltersCount F = 0 ->
      Debounced.applyFilters F rows = rows).
Proof.
  split; [apply activeFiltersCount_zero|].
  intros H. apply applyFilters_all_empty, activeFiltersCount_zero, H.
Qed.

Lemma no_active_filter_keeps_all_witness :
  Debounced.activeFiltersCount {[ "a" := " "; "b" := EmptyString ]} = 0
  /\ Debounced.applyFilters {[ "a" := " "; "b" := EmptyString ]}
       [ {[ "a" := "x" ]} ] = [ {[ "a" := "x" ]} ].
Proof.
  split; [reflexivity|].
  apply (proj2 (no_active_filter_keeps_all _ _)). reflexivity.
Defined.







(** ** Loading *)

(** X16.  After a load that returns at least one row, the data are the
    parsed rows, the headers and the filter map range over the keys of the
    first row, every filter is blank, no error is set, loading is over,
    and the filtering effect shows every row. *)
Theorem load_shows_all_rows (response : Debounced.Response)
    (st : Debounced.State) (row0 : TableRow) (rest : list TableRow) :
  Debounced.ok response = true ->
  Debounced.parseCSV (Debounced.text response) = Normal (row0 :: rest) ->
  let st' := Debounced.loadCSVData response st in
  Debounced.data st' = row0 :: rest
  /\ list_to_set (Debounced.headers st') = dom row0
  /\ dom (Debounced.filters st') = dom row0
  /\ Debounced.activeFiltersCount (Debounced.filters st') = 0
  /\ Debounced.error st' = None
  /\ Debounced.isLoading st' = false
  /\ Debounced.filteredData (Debounced.filterEffect st') = row0 :: rest.
Proof.
  intros Hok Hparse st'. subst st'. unfold Debounced.loadCSVData.
  rewrite Hok, Hparse. simpl.
  assert (Hblank : map_Forall (fun _ value => trim value = EmptyString)
                     (forEach (Object_keys row0) 0
                        (fun header _ m => <[header := EmptyString]> m)
                        (∅ : ColumnFilter))).
  { apply forEach_blank_Forall; [reflexivity|apply map_Forall_empty]. }
  repeat split.
  - apply list_to_set_Object_keys.
  - rewrite forEach_blank_dom, dom_empty_L, (left_id_L ∅ (∪)).
    apply list_to_set_Object_keys.
  - apply activeFiltersCount_zero, Hblank.
  - unfold Debounced.filterEffect. simpl.
    apply applyFilters_all_empty, Hblank.
Qed.

Lemma load_shows_all_rows_witness :
  Debounced.filteredData
    (Debounced.filterEffect
       (Debounced.loadCSVData (Debounced.mkResponse true 200 short_row_text)
          Debounced.initialState))
  = [ {[ "a" := "1"; "b" := "2"; "c" := EmptyString ]} ].
Proof.
  refine (proj2 (proj2 (proj2 (proj2 (proj2 (proj2
            (load_shows_all_rows
               (Debounced.mkResponse true 200 short_row_text)
               Debounced.initialState
               {[ "a" := "1"; "b" := "2"; "c" := EmptyString ]} [] _ _)))))));
    [reflexivity|vm_compute; reflexivity].
Defined.

(** X17.  A load that fails, or whose text has no data line, loads
    nothing: data, filtered data, headers and filters keep their values;
    loading is over; the error is the failed status in the first case and
    none in the second. *)
Theorem load_without_rows (response : Debounced.Response)
    (st : Debounced.State) :
  Debounced.ok response = false \/ dataLines (Debounced.text response) = [] ->
  let st' := Debounced.loadCSVData response st in
  Debounced.data st' = Debounced.data st
  /\ Debounced.filteredData st' = Debounced.filteredData st
  /\ Debounced.headers st' = Debounced.headers st
  /\ Debounced.filters st' = Debounced.filters st
  /\ Debounced.isLoading st' = false
  /\ Debounced.error st'
     = if Debounced.ok response then None
       else Some (Debounced.LoadFailed (Debounced.status response)).
Proof.
  intros H st'. subst st'. unfold Debounced.loadCSVData.
  destruct (Debounced.ok response) eqn:Hok; simpl.
  - destruct H as [H|H]; [discriminate|].
    rewrite parseCSV_rows, H. simpl. repeat split.
  - repeat split.
Qed.

Lemma load_without_rows_witness :
  Debounced.headers
    (Debounced.loadCSVData (Debounced.mkResponse true 200 "a,b,c")
       Debounced.initialState) = [].
Proof.
  refine (proj1 (proj2 (proj2
            (load_without_rows (Debounced.mkResponse true 200 "a,b,c")
               Debounced.initialState _)))).
  right. reflexivity.
Defined.

(** ** The rows shown *)

Lemma slice_from_start_prefix {A} (a : list A) (end_ : Z) :
  slice a 0 end_ `prefix_of` a.
Proof.
  unfold slice. simpl.
  replace (Z.min 0 (Z.of_nat (length a))) with 0%Z by lia.
  change (Z.to_nat 0) with 0. rewrite drop_0. apply prefix_take.
Qed.

(** X18.  Whatever integer [rowsToDisplay] holds, also a negative one, the
    rows rendered are a prefix of the filtered rows, and
    [displayRowsCount] is at most their number. *)
Theorem rendered_rows_are_a_prefix (rows : list TableRow) (rowsToDisplay : Z) :
  default []
    (Debounced.renderTableRows rows
       (Debounced.displayRowsCount rowsToDisplay rows))
    `prefix_of` rows
  /\ (Debounced.displayRowsCount rowsToDisplay rows
      <= Z.of_nat (length rows))%Z.
Proof.
  split.
  - unfold Debounced.renderTableRows.
    destruct (Nat.eqb (length rows) 0); simpl.
    + apply prefix_nil.
    + apply slice_from_start_prefix.
  - unfold Debounced.displayRowsCount. rewrite Z.geb_leb.
    destruct (Z.leb_spec (Z.of_nat (length rows)) rowsToDisplay); lia.
Qed.


(** ** The multi-column viewer *)

Lemma MultiColumn_applyFilters_stores (render st : MultiColumn.State) :
  MultiColumn.applyFilters render st
  = MultiColumn.setFilteredData
      (Debounced.applyFilters (MultiColumn.filters render)
         (MultiColumn.data render)) st.
Proof.
  unfold MultiColumn.applyFilters, Debounced.applyFilters.
  destruct (every _ _); reflexivity.
Qed.

(** X19.  The filtering of the multi-column viewer is the filtering of
    the debounced viewer: [applyFilters] stores the rows that
    [Debounced.applyFilters] returns for the filters and data of the
    render, and writes nothing else. *)
Theorem MultiColumn_applyFilters_agrees (render st : MultiColumn.State) :
  MultiColumn.applyFilters render st
  = MultiColumn.setFilteredData
      (Debounced.applyFilters (MultiColumn.filters render)
         (MultiColumn.data render)) st.
Proof. apply MultiColumn_applyFilters_stores. Qed.


(** X20.  After [resetAllFilters] all the data are shown and applying the
    filters changes nothing. *)
Theorem MultiColumn_reset_then_apply (st : MultiColumn.State) :
  MultiColumn.filteredData (fire MultiColumn.resetAllFilters st)
  = MultiColumn.data st
  /\ fire MultiColumn.applyFilters (fire MultiColumn.resetAllFilters st)
     = fire MultiColumn.resetAllFilters st.
Proof.
  split; [reflexivity|].
  unfold fire. rewrite MultiColumn_applyFilters_stores. simpl.
  rewrite applyFilters_all_empty; [reflexivity|].
  apply forEach_blank_Forall; [reflexivity|apply map_Forall_empty].
Qed.



(** ** The fifth-column viewer *)

Lemma enumerated_key_is_own (keys : TableRow -> list string) (row : TableRow)
    (i : nat) (key : string) :
  enumerates_keys keys -> keys row !! i = Some key ->
  exists value, row !! key = Some value.
Proof.
  intros Hkeys Hi. apply elem_of_dom.
  rewrite <- list_to_set_Object_keys. apply elem_of_list_to_set.
  rewrite <- (Hkeys row). apply list_elem_of_lookup. eauto.
Qed.

Lemma applyFilter_Normal (keys : TableRow -> list string)
    (render st : FifthColumn.State) :
  enumerates_keys keys ->
  FifthColumn.applyFilter keys render st
  = Normal
      (FifthColumn.setFilteredData
         (if truthy (trim (FifthColumn.filterValue render))
          then List.filter
                 (fifthColumnPasses keys (FifthColumn.filterValue render))
                 (FifthColumn.data render)
          else FifthColumn.data render) st).
Proof.
  intros Hkeys. unfold FifthColumn.applyFilter.
  destruct (truthy (trim (FifthColumn.filterValue render))); simpl;
    [|reflexivity].
  rewrite (Array_filter_throwing_Normal _ _
             (fifthColumnPasses keys (FifthColumn.filterValue render)));
    [reflexivity|].
  apply Forall_forall. intros row _. unfold fifthColumnPasses.
  destruct (keys row !! 4) as [key|] eqn:Hkey; [|reflexivity].
  destruct (truthy key); simpl; [|reflexivity].
  destruct (enumerated_key_is_own keys row 4 key Hkeys Hkey) as [value ->].
  reflexivity.
Qed.

Lemma Object_keys_enumerates : enumerates_keys Object_keys.
Proof. intros row. reflexivity. Qed.

(** X22.  [applyFilter] never throws: for every state it stores all the
    data when the filter value is blank, and otherwise the rows that have a
    fifth key, not the empty name, whose lower-cased cell contains the
    lower-cased trimmed filter value. *)
Theorem applyFilter_never_throws (keys : TableRow -> list string)
    (render st : FifthColumn.State) :
  enumerates_keys keys ->
  FifthColumn.applyFilter keys render st
  = Normal
      (FifthColumn.setFilteredData
         (if truthy (trim (FifthColumn.filterValue render))
          then List.filter
                 (fifthColumnPasses keys (FifthColumn.filterValue render))
                 (FifthColumn.data render)
          else FifthColumn.data render) st).
Proof. apply applyFilter_Normal. Qed.

Lemma applyFilter_never_throws_witness :
  FifthColumn.applyFilter Object_keys
    (FifthColumn.mkState
       [ {[ "a" := "x"; "b" := "x"; "c" := "x"; "d" := "x"; "e" := "x" ]};
         {[ "a" := "y"; "b" := "y"; "c" := "y"; "d" := "y"; "e" := "y" ]} ]
       [] "X" false None)
    (FifthColumn.mkState
       [ {[ "a" := "x"; "b" := "x"; "c" := "x"; "d" := "x"; "e" := "x" ]};
         {[ "a" := "y"; "b" := "y"; "c" := "y"; "d" := "y"; "e" := "y" ]} ]
       [] "X" false None)
  = Normal
      (FifthColumn.mkState
         [ {[ "a" := "x"; "b" := "x"; "c" := "x"; "d" := "x"; "e" := "x" ]};
           {[ "a" := "y"; "b" := "y"; "c" := "y"; "d" := "y"; "e" := "y" ]} ]
         [ {[ "a" := "x"; "b" := "x"; "c" := "x"; "d" := "x"; "e" := "x" ]} ]
         "X" false None).
Proof.
  exact (applyFilter_never_throws Object_keys
           (FifthColumn.mkState
              [ {[ "a" := "x"; "b" := "x"; "c" := "x"; "d" := "x";
                   "e" := "x" ]};
                {[ "a" := "y"; "b" := "y"; "c" := "y"; "d" := "y";
                   "e" := "y" ]} ]
              [] "X" false None)
           (FifthColumn.mkState
              [ {[ "a" := "x"; "b" := "x"; "c" := "x"; "d" := "x";
                   "e" := "x" ]};
                {[ "a" := "y"; "b" := "y"; "c" := "y"; "d" := "y";
                   "e" := "y" ]} ]
              [] "X" false None)
           Object_keys_enumerates).
Defined.

(** X23.  With fewer than five columns the fifth-column filter finds
    nothing: when no row has five keys, every filter value that is not
    blank leaves no row. *)
Theorem applyFilter_needs_five_columns (keys : TableRow -> list string)
    (render st : FifthColumn.State) :
  enumerates_keys keys ->
  trim (FifthColumn.filterValue render) <> EmptyString ->
  Forall (fun row : TableRow => size row < 5) (FifthColumn.data render) ->
  FifthColumn.applyFilter keys render st
  = Normal (FifthColumn.setFilteredData [] st).
Proof.
  intros Hkeys Hne Hrows. rewrite (applyFilter_Normal _ _ _ Hkeys).
  apply truthy_true in Hne. rewrite Hne. f_equal. f_equal.
  apply filter_none, (Forall_impl _ _ _ Hrows). intros row Hsize.
  unfold fifthColumnPasses. rewrite lookup_ge_None_2; [reflexivity|].
  rewrite (Hkeys row). unfold Object_keys.
  rewrite length_fmap, length_map_to_list. lia.
Qed.

Lemma applyFilter_needs_five_columns_witness :
  FifthColumn.applyFilter Object_keys
    (FifthColumn.mkState [ {[ "a" := "x" ]} ] [] "x" false None)
    (FifthColumn.mkState [ {[ "a" := "x" ]} ] [] "x" false None)
  = Normal (FifthColumn.mkState [ {[ "a" := "x" ]} ] [] "x" false None).
Proof.
  refine (applyFilter_needs_five_columns Object_keys
            (FifthColumn.mkState [ {[ "a" := "x" ]} ] [] "x" false None)
            (FifthColumn.mkState [ {[ "a" := "x" ]} ] [] "x" false None)
            Object_keys_enumerates _ _).
  - discriminate.
  - repeat constructor.
Defined.


(** ** Quoted fields *)

Lemma splitFields_escaped (field rest buffer : string) :
  rest = EmptyString \/ (exists rest', rest = String comma rest') ->
  Spec.splitFields (escape field +:+ str dquote +:+ rest) true buffer
  = Spec.splitFields rest false (buffer +:+ field).
Proof.
  intros Hrest. revert buffer. induction field as [|c f IH]; intros buf.
  - rewrite string_app_nil_r.
    change (escape EmptyString +:+ str dquote +:+ rest)
      with (String dquote rest).
    destruct Hrest as [->|[rest' ->]]; reflexivity.
  - cbn [escape]. destruct (Ascii.eqb c dquote) eqn:Hc.
    + apply Ascii.eqb_eq in Hc. subst c.
      rewrite !string_app_cons.
      change (Spec.splitFields
                (String dquote
                   (String dquote (escape f +:+ str dquote +:+ rest)))
                true buf)
        with (Spec.splitFields (escape f +:+ str dquote +:+ rest) true
                (buf +:+ str dquote)).
      rewrite IH, string_app_assoc. reflexivity.
    + rewrite string_app_cons. cbn [Spec.splitFields]. rewrite Hc.
      cbn [negb andb]. rewrite Bool.andb_false_r.
      rewrite IH, string_app_assoc. reflexivity.
Qed.

Lemma splitFields_quote (field rest : string) :
  rest = EmptyString \/ (exists rest', rest = String comma rest') ->
  Spec.splitFields (quote field +:+ rest) false EmptyString
  = Spec.splitFields rest false field.
Proof.
  intros Hrest. unfold quote. rewrite !string_app_assoc.
  change (Spec.splitFields
            (str dquote +:+ escape field +:+ str dquote +:+ rest)
            false EmptyString)
    with (Spec.splitFields (escape field +:+ str dquote +:+ rest)
            true EmptyString).
  rewrite (splitFields_escaped field rest EmptyString Hrest). reflexivity.
Qed.

(** X24.  Round trip of the usual quoting: a line of quoted fields, with
    doubled double quotes and with commas inside the fields, splits into
    the fields, each trimmed. *)
Theorem parseCSVLine_quotedLine (field : string) (fields : list string) :
  Debounced.parseCSVLine (quotedLine field fields)
  = map trim (field :: fields).
Proof.
  rewrite parseCSVLine_splitFields. revert field.
  induction fields as [|g fields IH]; intros field.
  - cbn [quotedLine]. rewrite <- (string_app_nil_r (quote field)).
    rewrite splitFields_quote by (left; reflexivity). reflexivity.
  - cbn [quotedLine]. rewrite splitFields_quote by (right; eauto).
    change (str comma +:+ quotedLine g fields)
      with (String comma (quotedLine g fields)).
    cbn [Spec.splitFields]. change (Ascii.eqb comma dquote) with false.
    rewrite Ascii.eqb_refl. cbn [negb andb]. rewrite IH. reflexivity.
Qed.

(** ** Rows are judged one by one *)

(** X25.  [applyFilters] judges each row on its own: filtering a
    concatenation is concatenating the filtered parts. *)
Theorem applyFilters_app (F : ColumnFilter) (rows1 rows2 : list TableRow) :
  Debounced.applyFilters F (rows1 ++ rows2)
  = Debounced.applyFilters F rows1 ++ Debounced.applyFilters F rows2.
Proof. rewrite !applyFilters_filter. apply List.filter_app. Qed.

(** X26.  After a load of the multi-column viewer that returns at least
    one row, all the rows are shown, every filter is blank, and applying
    the filters changes nothing. *)
Theorem MultiColumn_load_shows_all (response : MultiColumn.Response)
    (st : MultiColumn.State) (row0 : TableRow) (rest : list TableRow) :
  MultiColumn.ok response = true ->
  MultiColumn.parseCSV (MultiColumn.text response) = Normal (row0 :: rest) ->
  let st' := MultiColumn.loadCSVData response st in
  MultiColumn.data st' = row0 :: rest
  /\ MultiColumn.filteredData st' = row0 :: rest
  /\ MultiColumn.activeFiltersCount (MultiColumn.filters st') = 0
  /\ fire MultiColumn.applyFilters st' = st'.
Proof.
  intros Hok Hparse st'. subst st'. unfold MultiColumn.loadCSVData.
  rewrite Hok, Hparse. simpl.
  assert (Hblank : map_Forall (fun _ value => trim value = EmptyString)
                     (forEach (Object_keys row0) 0
                        (fun header _ m => <[header := EmptyString]> m)
                        (∅ : ColumnFilter))).
  { apply forEach_blank_Forall; [reflexivity|apply map_Forall_empty]. }
  repeat split.
  - apply (activeFiltersCount_zero _), Hblank.
  - unfold fire. rewrite MultiColumn_applyFilters_stores. simpl.
    rewrite (applyFilters_all_empty _ _ Hblank). reflexivity.
Qed.

Lemma MultiColumn_load_shows_all_witness :
  MultiColumn.filteredData
    (MultiColumn.loadCSVData (MultiColumn.mkResponse true 200 short_row_text)
       MultiColumn.initialState)
  = [ {[ "a" := "1"; "b" := "2"; "c" := EmptyString ]} ].
Proof.
  refine (proj1 (proj2
            (MultiColumn_load_shows_all
               (MultiColumn.mkResponse true 200 short_row_text)
               MultiColumn.initialState
               {[ "a" := "1"; "b" := "2"; "c" := EmptyString ]} [] _ _)));
    [reflexivity|vm_compute; reflexivity].
Defined.

(** ** The remaining handlers *)

(** X27.  A load of the fifth-column viewer whose response is ok never
    fails: data and filtered data both hold the rows [parseCSV] returns,
    also when there are none, no error is set and loading is over. *)
Theorem FifthColumn_load_replaces_data (response : FifthColumn.Response)
    (st : FifthColumn.State) :
  FifthColumn.ok response = true ->
  let st' := FifthColumn.loadCSVData response st in
  FifthColumn.parseCSV (FifthColumn.text response)
  = Normal (FifthColumn.data st')
  /\ FifthColumn.filteredData st' = FifthColumn.data st'
  /\ FifthColumn.error st' = None
  /\ FifthColumn.isLoading st' = false.
Proof.
  intros Hok st'. subst st'. unfold FifthColumn.loadCSVData.
  rewrite Hok, FifthColumn_parseCSV, parseCSV_rows. simpl. repeat split.
Qed.

Lemma FifthColumn_load_replaces_data_witness :
  FifthColumn.filteredData
    (FifthColumn.loadCSVData (FifthColumn.mkResponse true 200 "a,b")
       (FifthColumn.mkState [ {[ "a" := "x" ]} ] [ {[ "a" := "x" ]} ]
          EmptyString false None))
  = FifthColumn.data
      (FifthColumn.loadCSVData (FifthColumn.mkResponse true 200 "a,b")
         (FifthColumn.mkState [ {[ "a" := "x" ]} ] [ {[ "a" := "x" ]} ]
            EmptyString false None)).
Proof.
  exact (proj1 (proj2
           (FifthColumn_load_replaces_data
              (FifthColumn.mkResponse true 200 "a,b")
              (FifthColumn.mkState [ {[ "a" := "x" ]} ] [ {[ "a" := "x" ]} ]
                 EmptyString false None) eq_refl))).
Defined.

(** X28.  In the fifth-column viewer [resetFilter] empties the filter
    value and shows all the data; pressing Enter afterwards changes
    nothing, and a key other than Enter never changes the state. *)
Theorem FifthColumn_reset_then_enter (keys : TableRow -> list string)
    (st : FifthColumn.State) :
  FifthColumn.filterValue (fire FifthColumn.resetFilter st) = EmptyString
  /\ FifthColumn.filteredData (fire FifthColumn.resetFilter st)
     = FifthColumn.data st
  /\ FifthColumn.handleKeyPress keys "Enter"
       (fire FifthColumn.resetFilter st) (fire FifthColumn.resetFilter st)
     = Normal (fire FifthColumn.resetFilter st)
  /\ (forall key render, key <> "Enter" ->
        FifthColumn.handleKeyPress keys key render st = Normal st).
Proof.
  split; [reflexivity|]. split; [reflexivity|]. split; [reflexivity|].
  intros key render Hkey. unfold FifthColumn.handleKeyPress.
  destruct (String.eqb_spec key "Enter"); [contradiction|reflexivity].
Qed.


(** ** The filter maps the component builds *)

(** X30.  A filter map whose columns are own keys of every row never
    makes the filtering throw: reading through [Object.prototype],
    [applyFilters] returns the rows that the reading of own properties
    gives, and the filtering effect stores them.  When [applyFilters]
    does throw, the effect catches it and leaves the state as it was. *)
Theorem own_columns_never_throw (st : Debounced.State) :
  (Forall (fun row : TableRow => dom (Debounced.filters st) ⊆ dom row)
     (Debounced.data st) ->
   WithPrototype.applyFilters (Debounced.filters st) (Debounced.data st)
   = Normal
       (Debounced.applyFilters (Debounced.filters st) (Debounced.data st))
   /\ WithPrototype.filterEffect st = Debounced.filterEffect st)
  /\ (forall message,
        WithPrototype.applyFilters (Debounced.filters st) (Debounced.data st)
        = TypeError message ->
        WithPrototype.filterEffect st = st).
Proof.
  split.
  - intros Hdom. apply own_columns_reads_own, applyFilters_reads_own in Hdom.
    split; [exact Hdom|].
    unfold WithPrototype.filterEffect, Debounced.filterEffect.
    rewrite Hdom. reflexivity.
  - intros message Hthrow. unfold WithPrototype.filterEffect.
    rewrite Hthrow. destruct (Nat.eqb _ 0); reflexivity.
Qed.

Lemma own_columns_never_throw_witness :
  WithPrototype.filterEffect
    (Debounced.mkState
       [ {[ "toString" := "x" ]}; {[ "toString" := "y" ]} ] []
       {[ "toString" := "x" ]} false None ["toString"] 100)
  = Debounced.filterEffect
      (Debounced.mkState
         [ {[ "toString" := "x" ]}; {[ "toString" := "y" ]} ] []
         {[ "toString" := "x" ]} false None ["toString"] 100)
  /\ WithPrototype.filterEffect
       (Debounced.mkState [ {[ "a" := "x" ]} ] [ {[ "a" := "x" ]} ]
          {[ "toString" := "x" ]} false None ["a"] 100)
     = Debounced.mkState [ {[ "a" := "x" ]} ] [ {[ "a" := "x" ]} ]
         {[ "toString" := "x" ]} false None ["a"] 100.
Proof.
  split.
  - refine (proj2 (proj1 (own_columns_never_throw
              (Debounced.mkState
                 [ {[ "toString" := "x" ]}; {[ "toString" := "y" ]} ] []
                 {[ "toString" := "x" ]} false None ["toString"] 100)) _)).
    constructor; [|constructor; [|constructor]]; simpl;
      rewrite !dom_singleton_L; reflexivity.
  - refine (proj2 (own_columns_never_throw
              (Debounced.mkState [ {[ "a" := "x" ]} ] [ {[ "a" := "x" ]} ]
                 {[ "toString" := "x" ]} false None ["a"] 100))
              "row[column]?.toLowerCase is not a function" _).
    vm_compute. reflexivity.
Defined.
